(** * SHAAD: the n8n workflow provisioner (scripts/setup_n8n_workflows.py)

    A shallow embedding of the provisioning script and the properties of
    its contract: authentication resolution, the listing and creation
    calls, the four check-then-create template functions, and the
    sequential driver [setup_all_workflows]. *)

From Stdlib Require Import ZArith String Ascii List.
From stdpp Require Import base option list strings gmap pretty.

Local Open Scope string_scope.
Local Open Scope Z_scope.
Local Open Scope list_scope.

(** ** Python values that travel as JSON

    [response.json()] and the dict literals of the script are values of
    this type.  A dict is the list of its items in insertion order, each
    key once; numbers are the integers the service API uses (ids,
    positions, versions), the model has no floating-point numbers.
    [JNull] is Python's [None]. *)

Unset Elimination Schemes.
Inductive json : Type :=
| JNull
| JBool (b : bool)
| JNum (n : Z)
| JStr (s : string)
| JArr (items : list json)
| JObj (fields : list (string * json)).
Set Elimination Schemes.

(** Exceptions the script can meet; it catches none of them. *)
Inductive exn : Type :=
| KeyError (key : string)
| TypeError
| JSONDecodeError
| ConnectionError.

Inductive result (A : Type) : Type :=
| Ok (a : A)
| Raise (e : exn).
Arguments Ok {A} a.
Arguments Raise {A} e.

Definition raises {A} (r : result A) : Prop := ∃ e, r = Raise e.

Module Py.

(** [d.get(k)] on the items of a dict. *)
Fixpoint assoc (k : string) (fields : list (string * json)) : option json :=
  match fields with
  | [] => None
  | (k', v) :: rest => if String.eqb k' k then Some v else assoc k rest
  end.

(** [v[k]] with a [str] subscript: only a dict accepts it. *)
Definition getitem (v : json) (k : string) : result json :=
  match v with
  | JObj fields =>
      match assoc k fields with
      | Some x => Ok x
      | None => Raise (KeyError k)
      end
  | _ => Raise TypeError
  end.

Fixpoint chars (s : string) : list json :=
  match s with
  | EmptyString => []
  | String c rest => JStr (String c EmptyString) :: chars rest
  end.

(** [iter(v)]: a list yields its elements, a dict its keys, a str its
    characters; nothing else is iterable. *)
Definition iter (v : json) : result (list json) :=
  match v with
  | JArr items => Ok items
  | JObj fields => Ok (map (λ kv, JStr (fst kv)) fields)
  | JStr s => Ok (chars s)
  | _ => Raise TypeError
  end.

(** [any(f(w) for w in ws)]: stops at the first true, and at the first
    exception. *)
Fixpoint any (f : json → result bool) (ws : list json) : result bool :=
  match ws with
  | [] => Ok false
  | w :: rest =>
      match f w with
      | Raise e => Raise e
      | Ok true => Ok true
      | Ok false => any f rest
      end
  end.

(** [v == s] for a [str] s. *)
Definition eq_str (v : json) (s : string) : bool :=
  match v with
  | JStr t => String.eqb t s
  | _ => false
  end.

(** [bool(v)], the test behind [if v:]. *)
Definition truthy (v : json) : bool :=
  match v with
  | JNull => false
  | JBool b => b
  | JNum n => negb (Z.eqb n 0)
  | JStr s => negb (String.eqb s "")
  | JArr items => match items with [] => false | _ => true end
  | JObj fields => match fields with [] => false | _ => true end
  end.

Definition truthy_str (s : string) : bool := negb (String.eqb s "").

(** [str(v)], as an f-string placeholder applies it; [repr] is the
    interpreter's [repr()] of a list or a dict. *)
Definition str (repr : json → string) (v : json) : string :=
  match v with
  | JStr s => s
  | JNum n => pretty n
  | JBool true => "True"
  | JBool false => "False"
  | JNull => "None"
  | _ => repr v
  end.

End Py.

(** ** The process environment *)

(** [os.getenv(k, default)] *)
Definition getenv (env : gmap string string) (k default : string) : string :=
  match env !! k with
  | Some v => v
  | None => default
  end.

(** [os.getenv(k)] used as a condition: unset and empty are both false. *)
Definition getenv_truthy (env : gmap string string) (k : string) : bool :=
  match env !! k with
  | Some v => Py.truthy_str v
  | None => false
  end.

(** ** The client object *)

Record N8NWorkflowSetup : Type := {
  base_url : string;
  auth : option (string * string);
  headers : gmap string string
}.

Definition init (env : gmap string string) : N8NWorkflowSetup :=
  let url := "http://" +:+ getenv env "N8N_HOST" "localhost" +:+ ":"
             +:+ getenv env "N8N_PORT" "5678" in
  if getenv_truthy env "N8N_API_KEY" then
    {| base_url := url;
       auth := None;
       headers := <["X-N8N-API-KEY" := getenv env "N8N_API_KEY" ""]>
                    (<["Content-Type" := "application/json"]> ∅) |}
  else
    let username := getenv env "N8N_BASIC_AUTH_USER" "" in
    let password := getenv env "N8N_BASIC_AUTH_PASSWORD" "" in
    {| base_url := url;
       auth := if Py.truthy_str username && Py.truthy_str password
               then Some (username, password) else None;
       headers := <["Content-Type" := "application/json"]> ∅ |}.

(** ** The four hard-coded workflow definitions

    Each dict literal is built inside its template function from the local
    variable [workflow_name]; here it is a function of that variable. *)

Module Templates.

Definition dq : string := String "034"%char EmptyString.
Definition nl : string := String "010"%char EmptyString.

(** [={{$json["field"]}}] *)
Definition json_field (field : string) : string :=
  "{{$json[" +:+ dq +:+ field +:+ dq +:+ "]}}".

Definition node (parameters : list (string * json)) (name type : string)
    (x y : Z) : json :=
  JObj [("parameters", JObj parameters);
        ("name", JStr name);
        ("type", JStr type);
        ("typeVersion", JNum 1);
        ("position", JArr [JNum x; JNum y])].

Definition target (name : string) : json :=
  JObj [("node", JStr name); ("type", JStr "main"); ("index", JNum 0)].

Definition main (outputs : list (list json)) : json :=
  JObj [("main", JArr (map JArr outputs))].

Definition send_notification (workflow_name : string) : json :=
  JObj [
    ("name", JStr workflow_name);
    ("active", JBool true);
    ("nodes", JArr [
      node [] "Start" "n8n-nodes-base.start" 250 300;
      node [("conditions", JObj [("string", JArr [
               JObj [("value1", JStr ("=" +:+ json_field "channel"));
                     ("operation", JStr "equals");
                     ("value2", JStr "email")]])])]
           "Route by Channel" "n8n-nodes-base.if" 450 300;
      node [("resource", JStr "message");
            ("operation", JStr "send");
            ("from", JStr "=SHAAD Assistant <noreply@shaad.local>");
            ("to", JStr ("=" +:+ json_field "recipient"));
            ("subject", JStr ("=" +:+ json_field "subject"));
            ("text", JStr ("=" +:+ json_field "message"))]
           "Send Email" "n8n-nodes-base.emailSend" 650 200;
      node [("url", JStr ("=" +:+ json_field "webhook_url"));
            ("requestMethod", JStr "POST");
            ("jsonParameters", JBool true);
            ("options", JObj []);
            ("bodyParametersJson", JStr "={{JSON.stringify($json)}}")]
           "Send to Webhook" "n8n-nodes-base.httpRequest" 650 400]);
    ("connections", JObj [
      ("Start", main [[target "Route by Channel"]]);
      ("Route by Channel", main [[target "Send Email"];
                                 [target "Send to Webhook"]])])].

Definition web_search (workflow_name : string) : json :=
  JObj [
    ("name", JStr workflow_name);
    ("active", JBool true);
    ("nodes", JArr [
      node [] "Start" "n8n-nodes-base.start" 250 300;
      node [("url", JStr "https://api.duckduckgo.com/");
            ("requestMethod", JStr "GET");
            ("queryParametersUi", JObj [("parameter", JArr [
               JObj [("name", JStr "q");
                     ("value", JStr ("=" +:+ json_field "query"))];
               JObj [("name", JStr "format"); ("value", JStr "json")];
               JObj [("name", JStr "no_html"); ("value", JStr "1")]])])]
           "Search DuckDuckGo" "n8n-nodes-base.httpRequest" 450 300;
      node [("mode", JStr "runOnceForEachItem");
            ("jsCode", JStr (String.concat nl [
               "// Format search results";
               "const results = $input.item.json;";
               "const formatted = {";
               "  query: $node[" +:+ dq +:+ "Start" +:+ dq +:+ "].json["
                 +:+ dq +:+ "query" +:+ dq +:+ "],";
               "  results: []";
               "};";
               "";
               "if (results.RelatedTopics) {";
               "  formatted.results = results.RelatedTopics.slice(0, 5).map(topic => ({";
               "    title: topic.Text || '',";
               "    url: topic.FirstURL || '',";
               "    description: topic.Text || ''";
               "  }));";
               "}";
               "";
               "return formatted;"]))]
           "Format Results" "n8n-nodes-base.code" 650 300]);
    ("connections", JObj [
      ("Start", main [[target "Search DuckDuckGo"]]);
      ("Search DuckDuckGo", main [[target "Format Results"]])])].

Definition home_automation (workflow_name : string) : json :=
  JObj [
    ("name", JStr workflow_name);
    ("active", JBool true);
    ("nodes", JArr [
      node [] "Start" "n8n-nodes-base.start" 250 300;
      node [("conditions", JObj [("string", JArr [
               JObj [("value1", JStr ("=" +:+ json_field "device_type"));
                     ("operation", JStr "equals");
                     ("value2", JStr "light")]])])]
           "Device Router" "n8n-nodes-base.if" 450 300;
      node [("url", JStr ("=" +:+ json_field "device_api_url"));
            ("requestMethod", JStr "POST");
            ("jsonParameters", JBool true);
            ("options", JObj []);
            ("bodyParametersJson", JStr (String.concat nl [
               "={";
               "  " +:+ dq +:+ "action" +:+ dq +:+ ": " +:+ dq
                 +:+ json_field "action" +:+ dq +:+ ",";
               "  " +:+ dq +:+ "value" +:+ dq +:+ ": " +:+ dq
                 +:+ json_field "value" +:+ dq;
               "}"]))]
           "Control Device" "n8n-nodes-base.httpRequest" 650 300;
      node [("mode", JStr "runOnceForEachItem");
            ("jsCode", JStr (String.concat nl [
               "// Log action for future learning";
               "const action = $input.item.json;";
               "return {";
               "  success: true,";
               "  device: action.device_name,";
               "  action: action.action,";
               "  timestamp: new Date().toISOString()";
               "};"]))]
           "Log Action" "n8n-nodes-base.code" 850 300]);
    ("connections", JObj [
      ("Start", main [[target "Device Router"]]);
      ("Device Router", main [[target "Control Device"];
                              [target "Control Device"]]);
      ("Control Device", main [[target "Log Action"]])])].

Definition schedule_task (workflow_name : string) : json :=
  JObj [
    ("name", JStr workflow_name);
    ("active", JBool true);
    ("nodes", JArr [
      node [] "Start" "n8n-nodes-base.start" 250 300;
      node [("mode", JStr "runOnceForEachItem");
            ("jsCode", JStr (String.concat nl [
               "// Store task in database or schedule system";
               "const task = $input.item.json;";
               "";
               "// Parse the scheduled time";
               "const scheduledTime = new Date(task.scheduled_time);";
               "const now = new Date();";
               "";
               "// Calculate delay in milliseconds";
               "const delay = scheduledTime - now;";
               "";
               "return {";
               "  task_id: Math.random().toString(36).substr(2, 9),";
               "  title: task.title,";
               "  description: task.description,";
               "  scheduled_time: scheduledTime.toISOString(),";
               "  delay_ms: delay,";
               "  user_id: task.user_id,";
               "  notification_method: task.notification_method || 'email'";
               "};"]))]
           "Process Task" "n8n-nodes-base.code" 450 300;
      node [("amount", JStr ("=" +:+ json_field "delay_ms"));
            ("unit", JStr "milliseconds")]
           "Wait" "n8n-nodes-base.wait" 650 300;
      node [("workflowId",
             JStr ("={{$parameter[" +:+ dq +:+ "notification_workflow_id"
                   +:+ dq +:+ "]}}"));
            ("workflowParameters", JStr (String.concat nl [
               "={";
               "  " +:+ dq +:+ "channel" +:+ dq +:+ ": " +:+ dq
                 +:+ json_field "notification_method" +:+ dq +:+ ",";
               "  " +:+ dq +:+ "recipient" +:+ dq +:+ ": " +:+ dq
                 +:+ json_field "user_id" +:+ dq +:+ ",";
               "  " +:+ dq +:+ "subject" +:+ dq +:+ ": " +:+ dq
                 +:+ "Reminder: " +:+ json_field "title" +:+ dq +:+ ",";
               "  " +:+ dq +:+ "message" +:+ dq +:+ ": " +:+ dq
                 +:+ json_field "description" +:+ dq;
               "}"]))]
           "Send Reminder" "n8n-nodes-base.executeWorkflow" 850 300]);
    ("connections", JObj [
      ("Start", main [[target "Process Task"]]);
      ("Process Task", main [[target "Wait"]]);
      ("Wait", main [[target "Send Reminder"]])])].

End Templates.

(** The four templates in the order [setup_all_workflows] provisions them:
    the name each function checks and the definition it submits. *)
Definition templates : list (string * json) :=
  [("SHAAD_Send_Notification",
    Templates.send_notification "SHAAD_Send_Notification");
   ("SHAAD_Web_Search", Templates.web_search "SHAAD_Web_Search");
   ("SHAAD_Home_Control", Templates.home_automation "SHAAD_Home_Control");
   ("SHAAD_Schedule_Task", Templates.schedule_task "SHAAD_Schedule_Task")].

(** ** Reading a workflow definition

    The node names and the two ends of every connection, [None] when the
    definition does not have the layout of the data model. *)

Module Layout.

Definition field (k : string) (v : json) : option json :=
  match v with
  | JObj fields => Py.assoc k fields
  | _ => None
  end.

Definition items_of (v : json) : option (list json) :=
  match v with
  | JArr items => Some items
  | _ => None
  end.

Definition str_of (v : json) : option string :=
  match v with
  | JStr s => Some s
  | _ => None
  end.

(** The [name] of every node of [nodes]. *)
Definition node_names (workflow : json) : option (list string) :=
  nodes ← field "nodes" workflow ≫= items_of;
  mapM (λ n, field "name" n ≫= str_of) nodes.

(** The keys of [connections]. *)
Definition connection_sources (workflow : json) : option (list string) :=
  match field "connections" workflow with
  | Some (JObj sources) => Some (map fst sources)
  | _ => None
  end.

(** The [node] of every target of one output port. *)
Definition port_targets (port : json) : option (list string) :=
  targets ← items_of port;
  mapM (λ t, field "node" t ≫= str_of) targets.

(** The targets of all ports under [main] of one source. *)
Definition source_targets (connection : json) : option (list string) :=
  ports ← field "main" connection ≫= items_of;
  (λ found, List.concat found) <$> mapM port_targets ports.

Definition connection_targets (workflow : json) : option (list string) :=
  match field "connections" workflow with
  | Some (JObj sources) =>
      (λ found, List.concat found)
        <$> mapM (λ kv, source_targets (snd kv)) sources
  | _ => None
  end.

(** Every connection end names a node of the definition. *)
Definition consistent (workflow : json) : Prop :=
  ∃ nodes sources targets,
    node_names workflow = Some nodes
    ∧ connection_sources workflow = Some sources
    ∧ connection_targets workflow = Some targets
    ∧ Forall (λ n, n ∈ nodes) sources
    ∧ Forall (λ n, n ∈ nodes) targets.

End Layout.

(** ** HTTP as the client sees it *)

Inductive method : Type := GET | POST.

Record request : Type := {
  req_method : method;
  req_url : string;
  req_json : option json;
  req_headers : gmap string string;
  req_auth : option (string * string)
}.

(** A response object: [status_code], [text], and what [.json()] yields
    ([None] when the text is not JSON and [.json()] raises). *)
Record response : Type := {
  status_code : Z;
  text : string;
  body_json : option json
}.

(** [response.json()] *)
Definition response_json (r : response) : result json :=
  match body_json r with
  | Some j => Ok j
  | None => Raise JSONDecodeError
  end.

(** What a [requests.get]/[requests.post] call comes to, as the script
    sees it: the call returns a response, or it raises before there is
    one.  The script catches nothing, so one exception stands for every
    way in which the call fails: no connection, and likewise a URL the
    library refuses to send to. *)
Inductive outcome : Type :=
| Answered (r : response)
| Unreachable.

(** The world the script runs in: the remote service, the requests issued
    so far (answered or not) and the text of each [print] call so far, both
    in order. *)
Record world (Remote : Type) : Type := {
  remote : Remote;
  sent : list request;
  stdout : list string
}.
Arguments remote {Remote} w.
Arguments sent {Remote} w.
Arguments stdout {Remote} w.

(** How the process ends: the interpreter exits with 0 when the main
    module runs to its end and with 1 on an uncaught exception. *)
Record process_end : Type := {
  exit_code : Z;
  uncaught : option exn
}.

(** ["=" * 50] *)
Definition rule : string := String.concat "" (replicate 50 "=").

(** ** Vocabulary of the properties *)

(** The one path both calls target. *)
Definition endpoint (self : N8NWorkflowSetup) : string :=
  base_url self +:+ "/api/v1/workflows".

Definition listing_request (self : N8NWorkflowSetup) : request :=
  {| req_method := GET; req_url := endpoint self; req_json := None;
     req_headers := headers self; req_auth := auth self |}.

Definition creation_request (self : N8NWorkflowSetup) (workflow : json)
    : request :=
  {| req_method := POST; req_url := endpoint self;
     req_json := Some workflow;
     req_headers := headers self; req_auth := auth self |}.

(** The world after the service moved to [s'], the requests [rqs] went
    out and [lines] were printed. *)
Definition advance {Remote} (w : world Remote) (s' : Remote)
    (rqs : list request) (lines : list string) : world Remote :=
  {| remote := s'; sent := sent w ++ rqs; stdout := stdout w ++ lines |}.

(** A 2xx status. *)
Definition is_success (status : Z) : bool :=
  (200 <=? status) && (status <? 300).

(** The documented response shapes. *)
Definition named (record : json) : Prop :=
  ∃ v, Py.getitem record "name" = Ok v.

Definition listing_shape (r : response) : Prop :=
  ∃ body ws, body_json r = Some body
             ∧ Py.getitem body "data" = Ok (JArr ws)
             ∧ Forall named ws.

Definition creation_shape (r : response) : Prop :=
  ∃ body data id, body_json r = Some body
                  ∧ Py.getitem body "data" = Ok data
                  ∧ Py.getitem data "id" = Ok id.

(** The [data] member of a JSON body, when the body is an object that
    has one. *)
Definition data_member (r : response) : option json :=
  match body_json r with
  | Some (JObj fields) => Py.assoc "data" fields
  | _ => None
  end.

(** The status lines. *)
Definition exists_line (name : string) : string :=
  "✓ Workflow '" +:+ name +:+ "' already exists".
Definition created_line (repr : json → string) (name : string) (id : json)
    : string :=
  "✓ Created workflow '" +:+ name +:+ "' with ID: " +:+ Py.str repr id.
Definition failed_line (body : string) : string :=
  "Failed to create workflow: " +:+ body.

Definition header_lines : list string :=
  ["Setting up n8n workflows for SHAAD..."; rule].

Definition footer_lines : list string :=
  [rule;
   "✓ Workflow setup complete!";
   Templates.nl +:+ "Available workflows:";
   "- SHAAD_Send_Notification: Send notifications via email, webhook, etc.";
   "- SHAAD_Web_Search: Search the web for information";
   "- SHAAD_Home_Control: Control smart home devices";
   "- SHAAD_Schedule_Task: Schedule tasks and reminders"].

(** A request that goes to the endpoint with the client's header set and
    credentials. *)
Definition issued_by (self : N8NWorkflowSetup) (rq : request) : Prop :=
  req_url rq = endpoint self
  ∧ req_headers rq = headers self
  ∧ req_auth rq = auth self.

(** The name a record is listed under, when it is a [str]. *)
Definition record_name (record : json) : option string :=
  match Py.getitem record "name" with
  | Ok (JStr s) => Some s
  | _ => None
  end.

(** The names a list of remote records is listed under. *)
Definition listed_names (records : list json) : list string :=
  omap record_name records.

(** A template whose definition carries its name. *)
Definition keyed (t : string * json) : Prop :=
  Py.getitem (snd t) "name" = Ok (JStr (fst t)).

(** The templates whose name the records do not list. *)
Definition missing (records : list json) (ts : list (string * json))
    : list (string * json) :=
  filter (λ t, fst t ∉ listed_names records) ts.

(** The definitions a trace of requests submitted for creation. *)
Definition posted (rqs : list request) : list json :=
  omap (λ rq, match req_method rq with
              | POST => req_json rq
              | GET => None
              end) rqs.

(** A record that has a [name], and not the one looked for. *)
Definition other_name (name : string) (record : json) : Prop :=
  ∃ v, Py.getitem record "name" = Ok v ∧ v ≠ JStr name.

(** The requests one template's flow can add to the trace: its listing
    request, alone or followed by its creation request. *)
Definition flow_requests (self : N8NWorkflowSetup) (t : string * json)
    (rqs : list request) : Prop :=
  rqs = [listing_request self]
  ∨ rqs = [listing_request self; creation_request self (snd t)].

(** The records of a listing are read in order.  [name] is found when
    some record has it and every record before that one has another name;
    the reading breaks on [e] when the first record that does not have
    another name raises [e] on the lookup of its name. *)
Definition first_named (name : string) (ws : list json) : Prop :=
  ∃ before record after,
    ws = before ++ record :: after
    ∧ Forall (other_name name) before
    ∧ Py.getitem record "name" = Ok (JStr name).

Definition first_unreadable (name : string) (e : exn) (ws : list json)
    : Prop :=
  ∃ before record after,
    ws = before ++ record :: after
    ∧ Forall (other_name name) before
    ∧ Py.getitem record "name" = Raise e.

(** What a listing answer gives to iterate over: the elements of the
    [data] member of its JSON body. *)
Definition listing_items (r : response) (items : list json) : Prop :=
  ∃ body data, body_json r = Some body
               ∧ Py.getitem body "data" = Ok data
               ∧ Py.iter data = Ok items.

(** A listing answer that lists [name]: status 200, and the name is found
    among the items. *)
Definition listed (r : response) (name : string) : Prop :=
  status_code r = 200
  ∧ ∃ items, listing_items r items ∧ first_named name items.

(** A listing answer that does not list [name]: any status other than
    200, or items that all have another name. *)
Definition unlisted (r : response) (name : string) : Prop :=
  status_code r ≠ 200
  ∨ ∃ items, listing_items r items ∧ Forall (other_name name) items.

(** A 200 listing answer on which the check for [name] raises [e]: the
    body is not JSON, has no [data] member, the member cannot be iterated
    over, or an item's name cannot be read before the name is found. *)
Definition listing_fault (r : response) (name : string) (e : exn) : Prop :=
  status_code r = 200
  ∧ ((body_json r = None ∧ e = JSONDecodeError)
     ∨ (∃ body, body_json r = Some body
                ∧ Py.getitem body "data" = Raise e)
     ∨ (∃ body data, body_json r = Some body
                     ∧ Py.getitem body "data" = Ok data
                     ∧ Py.iter data = Raise e)
     ∨ (∃ items, listing_items r items ∧ first_unreadable name e items)).

(** A 201 creation answer that carries [id] under [data.id]. *)
Definition created_id (r : response) (id : json) : Prop :=
  status_code r = 201
  ∧ ∃ body data, body_json r = Some body
                 ∧ Py.getitem body "data" = Ok data
                 ∧ Py.getitem data "id" = Ok id.

(** A 201 creation answer on which reading [data.id] raises [e]. *)
Definition creation_fault (r : response) (e : exn) : Prop :=
  status_code r = 201
  ∧ ((body_json r = None ∧ e = JSONDecodeError)
     ∨ (∃ body, body_json r = Some body
                ∧ Py.getitem body "data" = Raise e)
     ∨ (∃ body data, body_json r = Some body
                     ∧ Py.getitem body "data" = Ok data
                     ∧ Py.getitem data "id" = Raise e)).

(** What one completed flow has printed: nothing, or one status text. *)
Definition flow_output (repr : json → string) (t : string * json)
    (out : list string) : Prop :=
  out = []
  ∨ out = [exists_line (fst t)]
  ∨ (∃ id, out = [created_line repr (fst t) id])
  ∨ (∃ body, out = [failed_line body]).

(** [print] writes its text and a newline, so a text shows on the
    terminal as the lines between its newline characters. *)
Fixpoint split_lines (s : string) : list string :=
  match s with
  | EmptyString => [EmptyString]
  | String c rest =>
      if Ascii.eqb c "010"
      then EmptyString :: split_lines rest
      else match split_lines rest with
           | [] => [String c EmptyString]
           | line :: lines => String c line :: lines
           end
  end.

(** The lines the terminal shows for the texts of a sequence of [print]
    calls. *)
Definition terminal_lines (texts : list string) : list string :=
  texts ≫= split_lines.


(** How many outcomes of a script are answers before the first failure to
    connect. *)
Fixpoint answered_first (script : list outcome) : nat :=
  match script with
  | Answered _ :: rest => S (answered_first rest)
  | _ => 0%nat
  end.

(** A computation run against a scripted service takes one outcome of
    the script per request, issues no request after a failure to connect
    (the end of the script counts as one), and raises the connection error
    when it meets one and only then. *)
Definition fail_fast {A}
    (c : world (list outcome) → result A * world (list outcome)) : Prop :=
  ∀ w, ∃ rqs,
    sent (snd (c w)) = sent w ++ rqs
    ∧ remote (snd (c w)) = drop (length rqs) (remote w)
    ∧ (((length rqs ≤ answered_first (remote w))%nat
        ∧ fst (c w) ≠ Raise ConnectionError)
       ∨ (length rqs = S (answered_first (remote w))
          ∧ fst (c w) = Raise ConnectionError)).

(** ** Services to run the client against *)

Module Script.

(** A service that replays a fixed list of outcomes, one per request, and
    is unreachable once the list is used up. *)
Definition serve (script : list outcome) (rq : request)
    : outcome * list outcome :=
  match script with
  | [] => (Unreachable, [])
  | answer :: rest => (answer, rest)
  end.

Definition answer (status : Z) (text : string) (body : option json)
    : outcome :=
  Answered {| status_code := status; text := text; body_json := body |}.

Definition start (script : list outcome) : world (list outcome) :=
  {| remote := script; sent := []; stdout := [] |}.

End Script.

Module Mock.

(** Modelled from the spec: a stateful mock service as the testable
    properties run the client against.  Its state is the list of remote workflow records, oldest
    first.  The listing call always succeeds and returns all of them
    under [data]; a creation call stores the submitted definition under
    a fresh id and answers 201 with that id under [data.id].  As a test
    double it hands the parsed body to the client and leaves the text
    empty. *)
Definition next_id (records : list json) : json :=
  JNum (Z.of_nat (length records) + 1).

Definition listing (records : list json) : response :=
  {| status_code := 200; text := "";
     body_json := Some (JObj [("data", JArr records)]) |}.

Definition created (id : json) : response :=
  {| status_code := 201; text := "";
     body_json := Some (JObj [("data", JObj [("id", id)])]) |}.

Definition rejected : response :=
  {| status_code := 400; text := "request body must be an object";
     body_json := None |}.

(** The record a creation call stores: the definition with its [id] set
    to the fresh one. *)
Definition stored (records : list json) (fields : list (string * json))
    : json :=
  JObj (("id", next_id records) :: filter (λ kv, fst kv ≠ "id") fields).

Definition serve (records : list json) (rq : request)
    : outcome * list json :=
  match req_method rq with
  | GET => (Answered (listing records), records)
  | POST =>
      match req_json rq with
      | Some (JObj fields) =>
          (Answered (created (next_id records)),
           records ++ [stored records fields])
      | _ => (Answered rejected, records)
      end
  end.

Definition start (records : list json) : world (list json) :=
  {| remote := records; sent := []; stdout := [] |}.

End Mock.

Module Blind.

(** A service that stores what is submitted, as the mock does, but whose
    listing call is down: it answers 503. *)
Definition serve (records : list json) (rq : request)
    : outcome * list json :=
  match req_method rq with
  | GET => (Script.answer 503 "Service Unavailable" None, records)
  | POST => Mock.serve records rq
  end.

End Blind.

(** ** Concrete runs *)

Module Scenario.

(** No run below prints a list or a dict. *)
Definition repr (v : json) : string := "".

(** The client of an empty environment: http://localhost:5678, no
    credentials. *)
Definition client : N8NWorkflowSetup := init ∅.

(** N8N_API_KEY is set, to the empty string, beside both basic-auth
    variables. *)
Definition env_empty_key : gmap string string :=
  <["N8N_API_KEY" := ""]>
    (<["N8N_BASIC_AUTH_USER" := "shaad"]>
       (<["N8N_BASIC_AUTH_PASSWORD" := "secret"]> ∅)).

Definition env_api_key : gmap string string :=
  <["N8N_API_KEY" := "n8n_api_0123"]>
    (<["N8N_BASIC_AUTH_USER" := "shaad"]>
       (<["N8N_BASIC_AUTH_PASSWORD" := "secret"]> ∅)).

Definition web_search_record : json :=
  JObj [("id", JStr "7"); ("name", JStr "SHAAD_Web_Search");
        ("active", JBool true)].

(** A 200 listing whose [data] is an empty object, not an array. *)
Definition empty_object_listing : response :=
  {| status_code := 200;
     text := "{" +:+ Templates.dq +:+ "data" +:+ Templates.dq +:+ ": {}}";
     body_json := Some (JObj [("data", JObj [])]) |}.

(** A 200 answer from something that is not the API: an HTML page. *)
Definition html_page : response :=
  {| status_code := 200; text := "<html><body>n8n</body></html>";
     body_json := None |}.

(** A 201 answer without a JSON body. *)
Definition created_without_body : response :=
  {| status_code := 201; text := ""; body_json := None |}.

Definition server_error : response :=
  {| status_code := 500; text := "Internal Server Error";
     body_json := None |}.

(** Nothing is listed; the first creation is answered with the id 0, the
    other three with the ids "2", "3" and "4". *)
Definition zero_id_script : list outcome :=
  [Answered (Mock.listing []); Answered (Mock.created (JNum 0));
   Answered (Mock.listing []); Answered (Mock.created (JStr "2"));
   Answered (Mock.listing []); Answered (Mock.created (JStr "3"));
   Answered (Mock.listing []); Answered (Mock.created (JStr "4"))].

Definition home_control_record : json :=
  JObj [("id", JStr "8"); ("name", JStr "SHAAD_Home_Control")].

(** A record without a name. *)
Definition nameless_record : json := JObj [("id", JStr "9")].

(** The four workflows, as a service that already has them lists them. *)
Definition all_four_records : list json :=
  [JObj [("id", JStr "1"); ("name", JStr "SHAAD_Send_Notification")];
   JObj [("id", JStr "2"); ("name", JStr "SHAAD_Web_Search")];
   JObj [("id", JStr "3"); ("name", JStr "SHAAD_Home_Control")];
   JObj [("id", JStr "4"); ("name", JStr "SHAAD_Schedule_Task")]].

(** A listing answered with the success status 203, as a transforming
    proxy answers, with the web-search workflow in its [data] array. *)
Definition listing_203 : response :=
  {| status_code := 203; text := "";
     body_json := Some (JObj [("data", JArr [web_search_record])]) |}.

(** Every kind of answer in one run: the notification listing is
    answered 500 and so is its creation; web-search is listed;
    home-control is not listed and is created; the schedule-task listing
    is answered 500 and its creation succeeds. *)
Definition mixed_script : list outcome :=
  [Answered server_error; Answered server_error;
   Answered (Mock.listing [web_search_record]);
   Answered (Mock.listing [web_search_record]);
   Answered (Mock.created (JStr "3"));
   Answered server_error; Answered (Mock.created (JStr "4"))].

(** The first flow fails twice over and completes; then the service is
    gone. *)
Definition cut_script : list outcome :=
  [Answered server_error; Answered server_error].

(** A rejection whose text ends in a line that reads like the closing
    line. *)
Definition spoofing_rejection : response :=
  {| status_code := 400;
     text := "bad request" +:+ Templates.nl +:+ "✓ Workflow setup complete!";
     body_json := None |}.

End Scenario.

Section Client.

Context {Remote : Type}.
(** The service, seen through the [requests] call: what a request comes
    to in a state of the service, and the next state. *)
Variable serve : Remote → request → outcome * Remote.
(** [repr()] of a list or a dict, left to the interpreter. *)
Variable py_repr : json → string.

(** Computations that print, talk to the service and may raise. *)
Definition M (A : Type) : Type := world Remote → result A * world Remote.

Definition ret {A} (a : A) : M A := λ w, (Ok a, w).

Definition bind {A B} (c : M A) (k : A → M B) : M B :=
  λ w, match c w with
       | (Ok a, w') => k a w'
       | (Raise e, w') => (Raise e, w')
       end.

Definition lift {A} (r : result A) : M A := λ w, (r, w).

Notation "'let*' x := c 'in' k" := (bind c (λ x, k))
  (at level 10, x name, c at level 100, k at level 200).

Definition print (line : string) : M unit :=
  λ w, (Ok tt, {| remote := remote w; sent := sent w;
                  stdout := stdout w ++ [line] |}).

Definition send (rq : request) : M response :=
  λ w, let (answer, s') := serve (remote w) rq in
       let w' := {| remote := s'; sent := sent w ++ [rq];
                    stdout := stdout w |} in
       match answer with
       | Answered r => (Ok r, w')
       | Unreachable => (Raise ConnectionError, w')
       end.

Definition requests_post (url : string) (json : json)
    (headers : gmap string string) (auth : option (string * string))
    : M response :=
  send {| req_method := POST; req_url := url; req_json := Some json;
          req_headers := headers; req_auth := auth |}.

Definition requests_get (url : string)
    (headers : gmap string string) (auth : option (string * string))
    : M response :=
  send {| req_method := GET; req_url := url; req_json := None;
          req_headers := headers; req_auth := auth |}.

Definition create_workflow (self : N8NWorkflowSetup) (workflow_data : json)
    : M json :=
  let* response := requests_post (base_url self +:+ "/api/v1/workflows")
                     workflow_data (headers self) (auth self) in
  if Z.eqb (status_code response) 201 then
    let* body := lift (response_json response) in
    let* data := lift (Py.getitem body "data") in
    lift (Py.getitem data "id")
  else
    let* _ := print ("Failed to create workflow: " +:+ text response) in
    ret JNull.

Definition workflow_exists (self : N8NWorkflowSetup) (name : string)
    : M bool :=
  let* response := requests_get (base_url self +:+ "/api/v1/workflows")
                     (headers self) (auth self) in
  if Z.eqb (status_code response) 200 then
    let* body := lift (response_json response) in
    let* workflows := lift (Py.getitem body "data") in
    let* items := lift (Py.iter workflows) in
    lift (Py.any (λ w, match Py.getitem w "name" with
                       | Ok v => Ok (Py.eq_str v name)
                       | Raise e => Raise e
                       end) items)
  else ret false.

Definition create_send_notification_workflow (self : N8NWorkflowSetup)
    : M unit :=
  let workflow_name := "SHAAD_Send_Notification" in
  let* found := workflow_exists self workflow_name in
  if found then
    print ("✓ Workflow '" +:+ workflow_name +:+ "' already exists")
  else
    let workflow := Templates.send_notification workflow_name in
    let* workflow_id := create_workflow self workflow in
    if Py.truthy workflow_id then
      print ("✓ Created workflow '" +:+ workflow_name +:+ "' with ID: "
             +:+ Py.str py_repr workflow_id)
    else ret tt.

Definition create_web_search_workflow (self : N8NWorkflowSetup) : M unit :=
  let workflow_name := "SHAAD_Web_Search" in
  let* found := workflow_exists self workflow_name in
  if found then
    print ("✓ Workflow '" +:+ workflow_name +:+ "' already exists")
  else
    let workflow := Templates.web_search workflow_name in
    let* workflow_id := create_workflow self workflow in
    if Py.truthy workflow_id then
      print ("✓ Created workflow '" +:+ workflow_name +:+ "' with ID: "
             +:+ Py.str py_repr workflow_id)
    else ret tt.

Definition create_home_automation_workflow (self : N8NWorkflowSetup)
    : M unit :=
  let workflow_name := "SHAAD_Home_Control" in
  let* found := workflow_exists self workflow_name in
  if found then
    print ("✓ Workflow '" +:+ workflow_name +:+ "' already exists")
  else
    let workflow := Templates.home_automation workflow_name in
    let* workflow_id := create_workflow self workflow in
    if Py.truthy workflow_id then
      print ("✓ Created workflow '" +:+ workflow_name +:+ "' with ID: "
             +:+ Py.str py_repr workflow_id)
    else ret tt.

Definition create_schedule_task_workflow (self : N8NWorkflowSetup)
    : M unit :=
  let workflow_name := "SHAAD_Schedule_Task" in
  let* found := workflow_exists self workflow_name in
  if found then
    print ("✓ Workflow '" +:+ workflow_name +:+ "' already exists")
  else
    let workflow := Templates.schedule_task workflow_name in
    let* workflow_id := create_workflow self workflow in
    if Py.truthy workflow_id then
      print ("✓ Created workflow '" +:+ workflow_name +:+ "' with ID: "
             +:+ Py.str py_repr workflow_id)
    else ret tt.

Definition setup_all_workflows (self : N8NWorkflowSetup) : M unit :=
  let* _ := print "Setting up n8n workflows for SHAAD..." in
  let* _ := print rule in
  let* _ := create_send_notification_workflow self in
  let* _ := create_web_search_workflow self in
  let* _ := create_home_automation_workflow self in
  let* _ := create_schedule_task_workflow self in
  let* _ := print rule in
  let* _ := print "✓ Workflow setup complete!" in
  let* _ := print (Templates.nl +:+ "Available workflows:") in
  let* _ := print "- SHAAD_Send_Notification: Send notifications via email, webhook, etc." in
  let* _ := print "- SHAAD_Web_Search: Search the web for information" in
  let* _ := print "- SHAAD_Home_Control: Control smart home devices" in
  print "- SHAAD_Schedule_Task: Schedule tasks and reminders".

(** The [__main__] block, run in the environment [env] that
    [load_dotenv] has completed. *)
Definition main (env : gmap string string) (w : world Remote)
    : process_end * world Remote :=
  let setup := init env in
  match setup_all_workflows setup w with
  | (Ok _, w') => ({| exit_code := 0; uncaught := None |}, w')
  | (Raise e, w') => ({| exit_code := 1; uncaught := Some e |}, w')
  end.

(** *** The calls and the flow, read off the program *)

(** What [workflow_exists] makes of the listing response. *)
Definition listing_verdict (r : response) (name : string) : result bool :=
  if Z.eqb (status_code r) 200 then
    match response_json r with
    | Raise e => Raise e
    | Ok body =>
        match Py.getitem body "data" with
        | Raise e => Raise e
        | Ok workflows =>
            match Py.iter workflows with
            | Raise e => Raise e
            | Ok items =>
                Py.any (λ w, match Py.getitem w "name" with
                             | Ok v => Ok (Py.eq_str v name)
                             | Raise e => Raise e
                             end) items
            end
        end
    end
  else Ok false.

(** What [create_workflow] makes of the creation response: its result
    and the lines it prints. *)
Definition creation_verdict (r : response) : result json * list string :=
  if Z.eqb (status_code r) 201 then
    (match response_json r with
     | Raise e => Raise e
     | Ok body =>
         match Py.getitem body "data" with
         | Raise e => Raise e
         | Ok data => Py.getitem data "id"
         end
     end, [])
  else (Ok JNull, ["Failed to create workflow: " +:+ text r]).

(** The shape the four template functions share. *)
Definition check_then_create (self : N8NWorkflowSetup)
    (workflow_name : string) (workflow : json) : M unit :=
  let* found := workflow_exists self workflow_name in
  if found then
    print ("✓ Workflow '" +:+ workflow_name +:+ "' already exists")
  else
    let* workflow_id := create_workflow self workflow in
    if Py.truthy workflow_id then
      print ("✓ Created workflow '" +:+ workflow_name +:+ "' with ID: "
             +:+ Py.str py_repr workflow_id)
    else ret tt.

(** A computation adds to the trace of requests only requests that
    satisfy [P]. *)
Definition sends_only {A} (P : request → Prop) (c : M A) : Prop :=
  ∀ w, ∃ new, sent (snd (c w)) = sent w ++ new ∧ Forall P new.

(** A computation always sends [rq] first. *)
Definition sends_first {A} (rq : request) (c : M A) : Prop :=
  ∀ w, ∃ rest, sent (snd (c w)) = sent w ++ rq :: rest.

(** N8N_API_KEY is unset or empty. *)
Definition no_api_key (env : gmap string string) : Prop :=
  env !! "N8N_API_KEY" = None ∨ env !! "N8N_API_KEY" = Some "".

(** Modelled from the spec: the stateful service of the testable
    properties, seen through the records [records s] it holds in state
    [s].  The listing call answers 200 with all of them under [data]
    and changes nothing; a creation call that submits a definition with a
    name answers 201 with an id under [data.id], and the service then
    holds the old records and one more, listed under that name. *)
Definition stateful (records : Remote → list json) : Prop :=
  (∀ s rq, req_method rq = GET →
     ∃ r body, serve s rq = (Answered r, s)
               ∧ status_code r = 200
               ∧ body_json r = Some body
               ∧ Py.getitem body "data" = Ok (JArr (records s)))
  ∧ (∀ s rq workflow name,
       req_method rq = POST → req_json rq = Some workflow →
       Py.getitem workflow "name" = Ok (JStr name) →
       ∃ r s' record, serve s rq = (Answered r, s')
                      ∧ status_code r = 201
                      ∧ creation_shape r
                      ∧ records s' = records s ++ [record]
                      ∧ Py.getitem record "name" = Ok (JStr name)).

(** The flows of the templates [ts], one after the other, then [k]. *)
Definition provision_then (self : N8NWorkflowSetup)
    (ts : list (string * json)) (k : M unit) : M unit :=
  foldr (λ t k', bind (check_then_create self (fst t) (snd t)) (λ _, k'))
    k ts.

(** What the driver prints after the last flow. *)
Definition footer : M unit :=
  bind (print rule) (λ _,
  bind (print "✓ Workflow setup complete!") (λ _,
  bind (print (Templates.nl +:+ "Available workflows:")) (λ _,
  bind (print "- SHAAD_Send_Notification: Send notifications via email, webhook, etc.") (λ _,
  bind (print "- SHAAD_Web_Search: Search the web for information") (λ _,
  bind (print "- SHAAD_Home_Control: Control smart home devices") (λ _,
  print "- SHAAD_Schedule_Task: Schedule tasks and reminders")))))).

(** A flow that checks and creates under the one key [name]: on a 200
    listing of named records it prints "already exists" and stops when
    [name] is listed, and goes on to submit a definition named [name]
    when it is not; and every creation request it sends, whatever the
    service answers, submits a definition named [name]. *)
Definition keyed_on (self : N8NWorkflowSetup) (name : string) (f : M unit)
    : Prop :=
  (∀ w r s' body ws,
     serve (remote w) (listing_request self) = (Answered r, s') →
     status_code r = 200 → body_json r = Some body →
     Py.getitem body "data" = Ok (JArr ws) → Forall named ws →
     (name ∈ listed_names ws →
      f w = (Ok tt, advance w s' [listing_request self] [exists_line name]))
     ∧ (name ∉ listed_names ws →
        ∃ workflow, keyed (name, workflow)
                    ∧ sent (snd (f w))
                      = sent w ++ [listing_request self;
                                   creation_request self workflow]))
  ∧ sends_only (λ rq, rq = listing_request self
                      ∨ ∃ workflow, rq = creation_request self workflow
                                    ∧ keyed (name, workflow)) f.

(** A template function: the check-then-create flow of one name and one
    definition, the definition carrying that name. *)
Definition same_key (self : N8NWorkflowSetup) (name : string)
    (workflow : json) (f : M unit) : Prop :=
  f = check_then_create self name workflow
  ∧ Py.getitem workflow "name" = Ok (JStr name)
  ∧ keyed_on self name f.

(** A service whose listing call is down: it answers every request, a
    listing never with 200, and sends the documented shape with a 201
    creation. *)
Definition listing_down (Inv : Remote → Prop) : Prop :=
  ∀ s rq, Inv s →
    ∃ r s', serve s rq = (Answered r, s') ∧ Inv s' ∧
      match req_method rq with
      | GET => status_code r ≠ 200
      | POST => status_code r = 201 → creation_shape r
      end.

(** [n] runs of [setup_all_workflows], one after the other. *)
Fixpoint runs (n : nat) (self : N8NWorkflowSetup) : M unit :=
  match n with
  | O => ret tt
  | S n' => bind (setup_all_workflows self) (λ _, runs n' self)
  end.

(** One template's flow that completes, tied to what the service
    answers.  The name is listed: "already exists" is printed after the
    listing request.  It is not: the creation request follows, and a 201
    answer with an id prints "Created" when the id is true in Python and
    nothing when it is false, while an answer with any other status
    prints "Failed" with the text of that answer. *)
Inductive flow_step (self : N8NWorkflowSetup) (name : string)
    (workflow : json) (w w' : world Remote) : Prop :=
| step_exists (r1 : response) (s1 : Remote) :
    serve (remote w) (listing_request self) = (Answered r1, s1) →
    listed r1 name →
    w' = advance w s1 [listing_request self] [exists_line name] →
    flow_step self name workflow w w'
| step_created (r1 r2 : response) (s1 s2 : Remote) (id : json) :
    serve (remote w) (listing_request self) = (Answered r1, s1) →
    unlisted r1 name →
    serve s1 (creation_request self workflow) = (Answered r2, s2) →
    created_id r2 id → Py.truthy id = true →
    w' = advance w s2
           [listing_request self; creation_request self workflow]
           [created_line py_repr name id] →
    flow_step self name workflow w w'
| step_silent (r1 r2 : response) (s1 s2 : Remote) (id : json) :
    serve (remote w) (listing_request self) = (Answered r1, s1) →
    unlisted r1 name →
    serve s1 (creation_request self workflow) = (Answered r2, s2) →
    created_id r2 id → Py.truthy id = false →
    w' = advance w s2
           [listing_request self; creation_request self workflow] [] →
    flow_step self name workflow w w'
| step_failed (r1 r2 : response) (s1 s2 : Remote) :
    serve (remote w) (listing_request self) = (Answered r1, s1) →
    unlisted r1 name →
    serve s1 (creation_request self workflow) = (Answered r2, s2) →
    status_code r2 ≠ 201 →
    w' = advance w s2
           [listing_request self; creation_request self workflow]
           [failed_line (text r2)] →
    flow_step self name workflow w w'.

(** One template's flow that ends on the exception [e], tied to what the
    service answers: a request that is not answered, a 200 listing the
    check raises on, or a 201 creation without a readable [data.id].
    Nothing is printed. *)
Inductive flow_fault (self : N8NWorkflowSetup) (name : string)
    (workflow : json) (w : world Remote) (e : exn) (w' : world Remote)
    : Prop :=
| fault_listing_unreachable (s1 : Remote) :
    serve (remote w) (listing_request self) = (Unreachable, s1) →
    e = ConnectionError →
    w' = advance w s1 [listing_request self] [] →
    flow_fault self name workflow w e w'
| fault_listing (r1 : response) (s1 : Remote) :
    serve (remote w) (listing_request self) = (Answered r1, s1) →
    listing_fault r1 name e →
    w' = advance w s1 [listing_request self] [] →
    flow_fault self name workflow w e w'
| fault_creation_unreachable (r1 : response) (s1 s2 : Remote) :
    serve (remote w) (listing_request self) = (Answered r1, s1) →
    unlisted r1 name →
    serve s1 (creation_request self workflow) = (Unreachable, s2) →
    e = ConnectionError →
    w' = advance w s2
           [listing_request self; creation_request self workflow] [] →
    flow_fault self name workflow w e w'
| fault_creation (r1 r2 : response) (s1 s2 : Remote) :
    serve (remote w) (listing_request self) = (Answered r1, s1) →
    unlisted r1 name →
    serve s1 (creation_request self workflow) = (Answered r2, s2) →
    creation_fault r2 e →
    w' = advance w s2
           [listing_request self; creation_request self workflow] [] →
    flow_fault self name workflow w e w'.

(** The flows of the templates [ts] complete one after the other, each
    from the world the one before left. *)
Fixpoint flows (self : N8NWorkflowSetup) (ts : list (string * json))
    (w w' : world Remote) : Prop :=
  match ts with
  | [] => w' = w
  | t :: ts' =>
      ∃ w1, flow_step self (fst t) (snd t) w w1 ∧ flows self ts' w1 w'
  end.

(** From the state [s] on, the service answers every request the flows
    of [ts] make, whatever the status: each listing request, and the
    creation request of a template whose name the listing does not list;
    and the body of a 200 listing and of a 201 creation has the documented
    shape. *)
Fixpoint served (self : N8NWorkflowSetup) (ts : list (string * json))
    (s : Remote) : Prop :=
  match ts with
  | [] => True
  | t :: ts' =>
      ∃ r1 s1,
        serve s (listing_request self) = (Answered r1, s1)
        ∧ (status_code r1 = 200 → listing_shape r1)
        ∧ (listed r1 (fst t) → served self ts' s1)
        ∧ (¬ listed r1 (fst t) →
           ∃ r2 s2,
             serve s1 (creation_request self (snd t)) = (Answered r2, s2)
             ∧ (status_code r2 = 201 → creation_shape r2)
             ∧ served self ts' s2)
  end.

(** *** How the two calls run *)

Lemma workflow_exists_run self name w :
  workflow_exists self name w =
  match serve (remote w) (listing_request self) with
  | (Answered r, s') =>
      (listing_verdict r name, advance w s' [listing_request self] [])
  | (Unreachable, s') =>
      (Raise ConnectionError, advance w s' [listing_request self] [])
  end.
Proof.
  unfold workflow_exists, requests_get, send, bind, listing_verdict,
    advance, lift, ret.
  fold (endpoint self). fold (listing_request self).
  destruct (serve (remote w) (listing_request self)) as [[r|] s'];
    rewrite ?app_nil_r; [|reflexivity].
  destruct (Z.eqb (status_code r) 200); [|reflexivity].
  destruct (response_json r) as [body|]; [|reflexivity].
  destruct (Py.getitem body "data") as [v|]; [|reflexivity].
  destruct (Py.iter v) as [items|]; reflexivity.
Qed.

Lemma create_workflow_run self workflow w :
  create_workflow self workflow w =
  match serve (remote w) (creation_request self workflow) with
  | (Answered r, s') =>
      (fst (creation_verdict r),
       advance w s' [creation_request self workflow]
               (snd (creation_verdict r)))
  | (Unreachable, s') =>
      (Raise ConnectionError,
       advance w s' [creation_request self workflow] [])
  end.
Proof.
  unfold create_workflow, requests_post, send, bind, creation_verdict,
    advance, lift, ret, print.
  fold (endpoint self). fold (creation_request self workflow).
  destruct (serve (remote w) (creation_request self workflow))
    as [[r|] s']; simpl; rewrite ?app_nil_r; [|reflexivity].
  destruct (Z.eqb (status_code r) 201); simpl; [|reflexivity].
  rewrite app_nil_r.
  destruct (response_json r) as [body|]; [|reflexivity].
  destruct (Py.getitem body "data") as [v|]; reflexivity.
Qed.

(** *** The verdicts on well-formed and on failed responses *)

Lemma eq_str_true v name : Py.eq_str v name = true ↔ v = JStr name.
Proof.
  destruct v; simpl; try (split; [discriminate|congruence]).
  rewrite String.eqb_eq. split; congruence.
Qed.

Lemma any_named name ws :
  Forall named ws →
  ∃ b, Py.any (λ w, match Py.getitem w "name" with
                    | Ok v => Ok (Py.eq_str v name)
                    | Raise e => Raise e
                    end) ws = Ok b
       ∧ (b = true ↔ ∃ record, record ∈ ws
                               ∧ Py.getitem record "name" = Ok (JStr name)).
Proof.
  induction 1 as [|record ws [v Hv] _ [b [Hb Hiff]]]; simpl.
  - exists false. split; [reflexivity|].
    split; [discriminate|]. intros [? [Hin _]]. inversion Hin.
  - rewrite Hv. destruct (Py.eq_str v name) eqn:Heq.
    + exists true. split; [reflexivity|]. split; [|reflexivity].
      intros _. exists record. split; [left|].
      apply eq_str_true in Heq. congruence.
    + exists b. split; [assumption|]. rewrite Hiff. split.
      * intros [x [Hin Hx]]. exists x. split; [right; assumption|assumption].
      * intros [x [Hin Hx]]. inversion Hin; subst; [|eauto].
        rewrite Hx in Hv. injection Hv as <-. simpl in Heq.
        rewrite String.eqb_refl in Heq. discriminate.
Qed.

Lemma listing_verdict_failed r name :
  status_code r ≠ 200 → listing_verdict r name = Ok false.
Proof.
  intros Hne. unfold listing_verdict.
  destruct (Z.eqb_spec (status_code r) 200); [contradiction|reflexivity].
Qed.

Lemma listing_verdict_listed r name body ws :
  status_code r = 200 → body_json r = Some body →
  Py.getitem body "data" = Ok (JArr ws) → Forall named ws →
  ∃ b, listing_verdict r name = Ok b
       ∧ (b = true ↔ ∃ record, record ∈ ws
                               ∧ Py.getitem record "name" = Ok (JStr name)).
Proof.
  intros Hst Hbody Hdata Hws. unfold listing_verdict, response_json.
  rewrite Hst, Hbody, Hdata. simpl. apply any_named, Hws.
Qed.

Lemma listing_verdict_shaped r name :
  (status_code r = 200 → listing_shape r) →
  ∃ b, listing_verdict r name = Ok b.
Proof.
  intros Hshape. destruct (Z.eq_dec (status_code r) 200) as [Hst|Hst].
  - destruct (Hshape Hst) as (body & ws & Hb & Hd & Hws).
    destruct (listing_verdict_listed r name body ws Hst Hb Hd Hws)
      as [b [Hv _]]. eauto.
  - exists false. apply listing_verdict_failed, Hst.
Qed.

Lemma creation_verdict_failed r :
  status_code r ≠ 201 →
  creation_verdict r = (Ok JNull, [failed_line (text r)]).
Proof.
  intros Hne. unfold creation_verdict.
  destruct (Z.eqb_spec (status_code r) 201); [contradiction|reflexivity].
Qed.

Lemma creation_verdict_created r body data id :
  status_code r = 201 → body_json r = Some body →
  Py.getitem body "data" = Ok data → Py.getitem data "id" = Ok id →
  creation_verdict r = (Ok id, []).
Proof.
  intros Hst Hbody Hdata Hid. unfold creation_verdict, response_json.
  rewrite Hst, Hbody, Hdata, Hid. reflexivity.
Qed.

(** *** The verdicts, case by case *)

Lemma any_first (f : json → result bool) ws (v : result bool) :
  v ≠ Ok false →
  Py.any f ws = v
  ↔ ∃ before w after, ws = before ++ w :: after
                      ∧ Forall (λ x, f x = Ok false) before
                      ∧ f w = v.
Proof.
  intros Hv. induction ws as [|x ws IH]; simpl.
  - split; [congruence|]. intros (before & w & after & Hws & _).
    destruct before; discriminate.
  - destruct (f x) as [[|]|e] eqn:Hx.
    + split.
      * intros <-. exists [], x, ws. split; [reflexivity|]. split; [constructor|].
        assumption.
      * intros ([|y before] & w & after & Hws & Hbefore & Hw);
          injection Hws as <- ->; [congruence|].
        apply Forall_inv in Hbefore. simpl in Hbefore. congruence.
    + rewrite IH. split.
      * intros (before & w & after & -> & Hbefore & Hw).
        exists (x :: before), w, after. split; [reflexivity|].
        split; [constructor; assumption|assumption].
      * intros ([|y before] & w & after & Hws & Hbefore & Hw);
          injection Hws as <- ->; [congruence|].
        apply Forall_inv_tail in Hbefore. eauto 10.
    + split.
      * intros <-. exists [], x, ws. split; [reflexivity|]. split; [constructor|].
        assumption.
      * intros ([|y before] & w & after & Hws & Hbefore & Hw);
          injection Hws as <- ->; [congruence|].
        apply Forall_inv in Hbefore. simpl in Hbefore. congruence.
Qed.

Lemma any_none (f : json → result bool) ws :
  Py.any f ws = Ok false ↔ Forall (λ x, f x = Ok false) ws.
Proof.
  induction ws as [|x ws IH]; simpl.
  - split; [constructor|reflexivity].
  - destruct (f x) as [[|]|e] eqn:Hx.
    + split; [discriminate|]. intros Hall. apply Forall_inv in Hall.
      simpl in Hall. congruence.
    + rewrite IH. split; [constructor; assumption|].
      apply Forall_inv_tail.
    + split; [discriminate|]. intros Hall. apply Forall_inv in Hall.
      simpl in Hall. congruence.
Qed.

Lemma name_test_other name record :
  match Py.getitem record "name" with
  | Ok v => Ok (Py.eq_str v name)
  | Raise e => Raise e
  end = Ok false
  ↔ other_name name record.
Proof.
  unfold other_name. destruct (Py.getitem record "name") as [v|e].
  - destruct (Py.eq_str v name) eqn:Heq.
    + apply eq_str_true in Heq. split; [discriminate|].
      intros (v' & [= <-] & Hne). contradiction.
    + split; [|reflexivity]. intros _. exists v. split; [reflexivity|].
      intros Hv. apply eq_str_true in Hv. congruence.
  - split; [discriminate|]. intros (v & Hv & _). discriminate.
Qed.

Lemma name_test_match name record :
  match Py.getitem record "name" with
  | Ok v => Ok (Py.eq_str v name)
  | Raise e => Raise e
  end = Ok true
  ↔ Py.getitem record "name" = Ok (JStr name).
Proof.
  destruct (Py.getitem record "name") as [v|e].
  - split.
    + intros [= Heq]. apply eq_str_true in Heq. congruence.
    + intros [= ->]. simpl. rewrite String.eqb_refl. reflexivity.
  - split; discriminate.
Qed.

Lemma name_test_raise name record e :
  match Py.getitem record "name" with
  | Ok v => Ok (Py.eq_str v name)
  | Raise e => @Raise bool e
  end = Raise e
  ↔ Py.getitem record "name" = Raise e.
Proof.
  destruct (Py.getitem record "name") as [v|e']; split; congruence.
Qed.

Lemma Forall_name_test name ws :
  Forall (λ x, match Py.getitem x "name" with
               | Ok v => Ok (Py.eq_str v name)
               | Raise e => Raise e
               end = Ok false) ws
  ↔ Forall (other_name name) ws.
Proof. apply Forall_iff. intros x. apply name_test_other. Qed.

Lemma any_name_true name ws :
  Py.any (λ w, match Py.getitem w "name" with
               | Ok v => Ok (Py.eq_str v name)
               | Raise e => Raise e
               end) ws = Ok true
  ↔ first_named name ws.
Proof.
  rewrite any_first by discriminate. unfold first_named.
  split; intros (before & record & after & Hws & Hbefore & Hrecord);
    exists before, record, after; (split; [assumption|]);
    (split; [apply Forall_name_test; assumption|]);
    apply (name_test_match name); assumption.
Qed.

Lemma any_name_false name ws :
  Py.any (λ w, match Py.getitem w "name" with
               | Ok v => Ok (Py.eq_str v name)
               | Raise e => Raise e
               end) ws = Ok false
  ↔ Forall (other_name name) ws.
Proof. rewrite any_none. apply Forall_name_test. Qed.

Lemma any_name_raise name ws e :
  Py.any (λ w, match Py.getitem w "name" with
               | Ok v => Ok (Py.eq_str v name)
               | Raise e => Raise e
               end) ws = Raise e
  ↔ first_unreadable name e ws.
Proof.
  rewrite any_first by discriminate. unfold first_unreadable.
  split; intros (before & record & after & Hws & Hbefore & Hrecord);
    exists before, record, after; (split; [assumption|]);
    (split; [apply Forall_name_test; assumption|]);
    apply (name_test_raise name); assumption.
Qed.

Lemma listing_verdict_true r name :
  listing_verdict r name = Ok true ↔ listed r name.
Proof.
  unfold listing_verdict, listed, listing_items, response_json.
  destruct (Z.eqb_spec (status_code r) 200) as [Hst|Hst].
  - destruct (body_json r) as [body|].
    + destruct (Py.getitem body "data") as [data|e] eqn:Hdata.
      * destruct (Py.iter data) as [items|e] eqn:Hiter.
        -- rewrite any_name_true. split.
           ++ intros Hfirst. split; [assumption|]. exists items.
              split; [|assumption]. exists body, data. auto.
           ++ intros (_ & items' & (body' & data' & [= <-] & Hdata' & Hiter')
                      & Hfirst).
              rewrite Hdata in Hdata'. injection Hdata' as <-.
              rewrite Hiter in Hiter'. injection Hiter' as <-. assumption.
        -- split; [discriminate|].
           intros (_ & items' & (body' & data' & [= <-] & Hdata' & Hiter')
                   & _).
           rewrite Hdata in Hdata'. injection Hdata' as <-.
           rewrite Hiter in Hiter'. discriminate.
      * split; [discriminate|].
        intros (_ & items' & (body' & data' & [= <-] & Hdata' & _) & _).
        rewrite Hdata in Hdata'. discriminate.
    + split; [discriminate|].
      intros (_ & items' & (body' & data' & [=] & _) & _).
  - split; [discriminate|]. intros [Hst' _]. contradiction.
Qed.

Lemma listing_verdict_false r name :
  listing_verdict r name = Ok false ↔ unlisted r name.
Proof.
  unfold listing_verdict, unlisted, listing_items, response_json.
  destruct (Z.eqb_spec (status_code r) 200) as [Hst|Hst];
    [|split; [left; assumption|reflexivity]].
  destruct (body_json r) as [body|].
  - destruct (Py.getitem body "data") as [data|e] eqn:Hdata.
    + destruct (Py.iter data) as [items|e] eqn:Hiter.
      * rewrite any_name_false. split.
        -- intros Hall. right. exists items. split; [|assumption].
           exists body, data. auto.
        -- intros [Hst'|(items' & (body' & data' & [= <-] & Hdata' & Hiter')
                         & Hall)]; [contradiction|].
           rewrite Hdata in Hdata'. injection Hdata' as <-.
           rewrite Hiter in Hiter'. injection Hiter' as <-. assumption.
      * split; [discriminate|].
        intros [Hst'|(items' & (body' & data' & [= <-] & Hdata' & Hiter')
                      & _)]; [contradiction|].
        rewrite Hdata in Hdata'. injection Hdata' as <-.
        rewrite Hiter in Hiter'. discriminate.
    + split; [discriminate|].
      intros [Hst'|(items' & (body' & data' & [= <-] & Hdata' & _) & _)];
        [contradiction|].
      rewrite Hdata in Hdata'. discriminate.
  - split; [discriminate|].
    intros [Hst'|(items' & (body' & data' & [=] & _) & _)]. contradiction.
Qed.

Lemma listing_verdict_raise r name e :
  listing_verdict r name = Raise e ↔ listing_fault r name e.
Proof.
  unfold listing_verdict, listing_fault, listing_items, response_json.
  destruct (Z.eqb_spec (status_code r) 200) as [Hst|Hst];
    [|split; [discriminate|intros [Hst' _]; contradiction]].
  destruct (body_json r) as [body|].
  - destruct (Py.getitem body "data") as [data|e'] eqn:Hdata.
    + destruct (Py.iter data) as [items|e'] eqn:Hiter.
      * rewrite any_name_raise. split.
        -- intros Hfirst. split; [assumption|]. do 3 right.
           exists items. split; [|assumption]. exists body, data. auto.
        -- intros (_ & [[[=] _]
                       |[(body' & [= <-] & Hdata')
                        |[(body' & data' & [= <-] & Hdata' & Hiter')
                         |(items' & (body' & data' & [= <-] & Hdata' & Hiter')
                           & Hfirst)]]]).
           ++ rewrite Hdata in Hdata'. discriminate.
           ++ rewrite Hdata in Hdata'. injection Hdata' as <-.
              rewrite Hiter in Hiter'. discriminate.
           ++ rewrite Hdata in Hdata'. injection Hdata' as <-.
              rewrite Hiter in Hiter'. injection Hiter' as <-. assumption.
      * split.
        -- intros [= ->]. split; [assumption|]. do 2 right. left.
           exists body, data. auto.
        -- intros (_ & [[[=] _]
                       |[(body' & [= <-] & Hdata')
                        |[(body' & data' & [= <-] & Hdata' & Hiter')
                         |(items' & (body' & data' & [= <-] & Hdata' & Hiter')
                           & Hfirst)]]]).
           ++ rewrite Hdata in Hdata'. discriminate.
           ++ rewrite Hdata in Hdata'. injection Hdata' as <-.
              rewrite Hiter in Hiter'. congruence.
           ++ rewrite Hdata in Hdata'. injection Hdata' as <-.
              rewrite Hiter in Hiter'. discriminate.
    + split.
      * intros [= ->]. split; [assumption|]. right. left. exists body. auto.
      * intros (_ & [[[=] _]
                     |[(body' & [= <-] & Hdata')
                      |[(body' & data' & [= <-] & Hdata' & _)
                       |(items' & (body' & data' & [= <-] & Hdata' & _)
                         & _)]]]).
        -- rewrite Hdata in Hdata'. congruence.
        -- rewrite Hdata in Hdata'. discriminate.
        -- rewrite Hdata in Hdata'. discriminate.
  - split.
    + intros [= <-]. split; [assumption|]. left. auto.
    + intros (_ & [[_ ->]
                   |[(body' & [=] & _)
                    |[(body' & data' & [=] & _)
                     |(items' & (body' & data' & [=] & _) & _)]]]).
      reflexivity.
Qed.

Lemma creation_verdict_lines r :
  status_code r = 201 → snd (creation_verdict r) = [].
Proof.
  intros Hst. unfold creation_verdict. rewrite Hst. reflexivity.
Qed.

Lemma creation_verdict_id r id :
  status_code r = 201 →
  fst (creation_verdict r) = Ok id ↔ created_id r id.
Proof.
  intros Hst. unfold creation_verdict, created_id, response_json.
  rewrite Hst. simpl. destruct (body_json r) as [body|].
  - destruct (Py.getitem body "data") as [data|e] eqn:Hdata.
    + split.
      * intros Hid. split; [reflexivity|]. exists body, data. auto.
      * intros (_ & body' & data' & [= <-] & Hdata' & Hid).
        rewrite Hdata in Hdata'. injection Hdata' as <-. assumption.
    + split; [discriminate|].
      intros (_ & body' & data' & [= <-] & Hdata' & _).
      rewrite Hdata in Hdata'. discriminate.
  - split; [discriminate|]. intros (_ & body' & data' & [=] & _).
Qed.

Lemma creation_verdict_raise r e :
  fst (creation_verdict r) = Raise e ↔ creation_fault r e.
Proof.
  unfold creation_verdict, creation_fault, response_json.
  destruct (Z.eqb_spec (status_code r) 201) as [Hst|Hst]; simpl;
    [|split; [discriminate|intros [Hst' _]; contradiction]].
  destruct (body_json r) as [body|].
  - destruct (Py.getitem body "data") as [data|e'] eqn:Hdata.
    + split.
      * intros Hid. split; [assumption|]. do 2 right.
        exists body, data. auto.
      * intros (_ & [[[=] _]
                     |[(body' & [= <-] & Hdata')
                      |(body' & data' & [= <-] & Hdata' & Hid)]]).
        -- rewrite Hdata in Hdata'. discriminate.
        -- rewrite Hdata in Hdata'. injection Hdata' as <-. assumption.
    + split.
      * intros [= ->]. split; [assumption|]. right. left. exists body. auto.
      * intros (_ & [[[=] _]
                     |[(body' & [= <-] & Hdata')
                      |(body' & data' & [= <-] & Hdata' & _)]]).
        -- rewrite Hdata in Hdata'. congruence.
        -- rewrite Hdata in Hdata'. discriminate.
  - split.
    + intros [= <-]. split; [assumption|]. left. auto.
    + intros (_ & [[_ ->]
                   |[(body' & [=] & _)|(body' & data' & [=] & _)]]).
      reflexivity.
Qed.

(** *** The contract of the two calls *)

(** C2, as the code has it: [workflow_exists] sends one listing request
    and prints nothing.  With any status other than 200, which is every
    non-success status and every other 2xx status as well, the result is
    false and nothing is raised, whatever the body holds.  With status
    200 and an array under [data], the records are read in order: the
    result is true exactly when some record has a [name] equal, character
    for character, to the argument and every record before it has another
    name; it is false exactly when every record has another name; and
    the call raises exactly when a record whose name cannot be read comes
    before any record with the name.  For an array of records that all
    have a name, the result is true exactly when some record has the
    name. *)
Theorem workflow_exists_spec self name w r s' :
  serve (remote w) (listing_request self) = (Answered r, s') →
  snd (workflow_exists self name w) = advance w s' [listing_request self] []
  ∧ (∀ body ws,
       status_code r = 200 → body_json r = Some body →
       Py.getitem body "data" = Ok (JArr ws) →
       (fst (workflow_exists self name w) = Ok true ↔ first_named name ws)
       ∧ (fst (workflow_exists self name w) = Ok false
          ↔ Forall (other_name name) ws)
       ∧ (∀ e, fst (workflow_exists self name w) = Raise e
               ↔ first_unreadable name e ws)
       ∧ (Forall named ws →
          ∃ b, workflow_exists self name w
                 = (Ok b, advance w s' [listing_request self] [])
               ∧ (b = true ↔ ∃ record, record ∈ ws
                    ∧ Py.getitem record "name" = Ok (JStr name))))
  ∧ (status_code r ≠ 200 →
     workflow_exists self name w
       = (Ok false, advance w s' [listing_request self] []))
  ∧ (is_success (status_code r) = false →
     workflow_exists self name w
       = (Ok false, advance w s' [listing_request self] [])).
Proof.
  intros Hserve. rewrite workflow_exists_run, Hserve.
  split; [reflexivity|]. split; [|split].
  - intros body ws Hst Hbody Hdata. cbn [fst].
    assert (Hverdict : listing_verdict r name
      = Py.any (λ w, match Py.getitem w "name" with
                     | Ok v => Ok (Py.eq_str v name)
                     | Raise e => Raise e
                     end) ws).
    { unfold listing_verdict, response_json.
      rewrite Hst, Hbody, Hdata. reflexivity. }
    split; [rewrite Hverdict; apply any_name_true|].
    split; [rewrite Hverdict; apply any_name_false|].
    split; [intros e; rewrite Hverdict; apply any_name_raise|].
    intros Hws.
    destruct (listing_verdict_listed r name body ws Hst Hbody Hdata Hws)
      as [b [Hv Hiff]].
    exists b. rewrite Hv. split; [reflexivity|assumption].
  - intros Hst. rewrite listing_verdict_failed; [reflexivity|assumption].
  - intros Hst. rewrite listing_verdict_failed; [reflexivity|].
    intros Heq. rewrite Heq in Hst. discriminate.
Qed.

(** C3: [create_workflow] sends one creation request carrying the
    definition.  On status 201 it returns the id found under [data.id]
    of the response body and prints nothing; on any other status it
    prints the raw response body after "Failed to create workflow: ",
    returns [None], raises nothing and sends nothing more. *)
Theorem create_workflow_spec self workflow w r s' :
  serve (remote w) (creation_request self workflow) = (Answered r, s') →
  (∀ body data id,
     status_code r = 201 → body_json r = Some body →
     Py.getitem body "data" = Ok data → Py.getitem data "id" = Ok id →
     create_workflow self workflow w
       = (Ok id, advance w s' [creation_request self workflow] []))
  ∧ (status_code r ≠ 201 →
     create_workflow self workflow w
       = (Ok JNull,
          advance w s' [creation_request self workflow]
            ["Failed to create workflow: " +:+ text r])).
Proof.
  intros Hserve. rewrite create_workflow_run, Hserve. split.
  - intros body data id Hst Hbody Hdata Hid.
    rewrite (creation_verdict_created r body data id) by assumption.
    reflexivity.
  - intros Hst. rewrite creation_verdict_failed by assumption.
    reflexivity.
Qed.

(** C7: the base URL is [http://HOST:PORT] with HOST read from N8N_HOST,
    "localhost" when unset, and PORT from N8N_PORT, "5678" when unset;
    the listing call is a GET and the creation call a POST, both to
    exactly [base_url/api/v1/workflows]. *)
Theorem base_url_and_endpoint env self name workflow w :
  base_url (init env)
    = "http://" +:+ default "localhost" (env !! "N8N_HOST") +:+ ":"
      +:+ default "5678" (env !! "N8N_PORT")
  ∧ base_url (init ∅) = "http://localhost:5678"
  ∧ sent (snd (workflow_exists self name w))
    = sent w ++ [{| req_method := GET;
                    req_url := base_url self +:+ "/api/v1/workflows";
                    req_json := None;
                    req_headers := headers self;
                    req_auth := auth self |}]
  ∧ sent (snd (create_workflow self workflow w))
    = sent w ++ [{| req_method := POST;
                    req_url := base_url self +:+ "/api/v1/workflows";
                    req_json := Some workflow;
                    req_headers := headers self;
                    req_auth := auth self |}].
Proof.
  split; [|split; [|split]].
  - unfold init, getenv.
    destruct (getenv_truthy env "N8N_API_KEY"); simpl;
      destruct (env !! "N8N_HOST"), (env !! "N8N_PORT"); reflexivity.
  - reflexivity.
  - rewrite workflow_exists_run.
    destruct (serve (remote w) (listing_request self)) as [[r|] s'];
      reflexivity.
  - rewrite create_workflow_run.
    destruct (serve (remote w) (creation_request self workflow))
      as [[r|] s']; reflexivity.
Qed.

(** *** Success responses off the documented shape *)

Lemma data_member_some r v :
  data_member r = Some v ↔
  ∃ body, body_json r = Some body ∧ Py.getitem body "data" = Ok v.
Proof.
  unfold data_member. split.
  - destruct (body_json r) as [[]|]; try discriminate.
    intros H. eexists. split; [reflexivity|]. simpl. rewrite H. done.
  - intros (body & -> & Hd). destruct body; try discriminate.
    simpl in Hd. destruct (Py.assoc "data" fields); congruence.
Qed.

Lemma data_member_none r name :
  status_code r = 200 → data_member r = None →
  raises (listing_verdict r name).
Proof.
  intros Hst Hnone. unfold listing_verdict, response_json, data_member in *.
  rewrite Hst. simpl.
  destruct (body_json r) as [body|]; [|eexists; reflexivity].
  destruct body; simpl; try (eexists; reflexivity).
  rewrite Hnone. eexists; reflexivity.
Qed.

Lemma listing_verdict_not_iterable r name v :
  status_code r = 200 → data_member r = Some v →
  (∀ ws, v ≠ JArr ws) → v ≠ JObj [] → v ≠ JStr "" →
  raises (listing_verdict r name).
Proof.
  intros Hst Hdata Harr Hobj Hstr.
  apply data_member_some in Hdata as (body & Hbody & Hdata).
  unfold listing_verdict, response_json. rewrite Hst, Hbody, Hdata. simpl.
  destruct v as [| | |s|ws|fields]; simpl; try (eexists; reflexivity).
  - destruct s; [contradiction|]. eexists; reflexivity.
  - destruct (Harr ws eq_refl).
  - destruct fields as [|[k x] rest]; [contradiction|].
    eexists; reflexivity.
Qed.

Lemma listing_verdict_empty r name v :
  status_code r = 200 → data_member r = Some v →
  v = JObj [] ∨ v = JStr "" →
  listing_verdict r name = Ok false.
Proof.
  intros Hst Hdata Hv.
  apply data_member_some in Hdata as (body & Hbody & Hdata).
  unfold listing_verdict, response_json. rewrite Hst, Hbody, Hdata.
  destruct Hv as [-> | ->]; reflexivity.
Qed.

Lemma creation_verdict_shaped r :
  (status_code r = 201 → creation_shape r) →
  ∃ id, fst (creation_verdict r) = Ok id.
Proof.
  intros Hshape. destruct (Z.eq_dec (status_code r) 201) as [Hst|Hst].
  - destruct (Hshape Hst) as (body & data & id & Hb & Hd & Hid).
    rewrite (creation_verdict_created r body data id) by assumption.
    eauto.
  - rewrite creation_verdict_failed by assumption. eauto.
Qed.

Lemma creation_verdict_unshaped r :
  status_code r = 201 → ¬ creation_shape r →
  raises (fst (creation_verdict r)).
Proof.
  intros Hst Hno. unfold creation_verdict, response_json. rewrite Hst.
  simpl. destruct (body_json r) as [body|] eqn:Hbody;
    [|eexists; reflexivity].
  destruct (Py.getitem body "data") as [data|] eqn:Hdata;
    [|eexists; reflexivity].
  destruct (Py.getitem data "id") as [id|] eqn:Hid;
    [|eexists; reflexivity].
  destruct Hno. exists body, data, id. done.
Qed.

(** C8, as the code has it: a 201 creation response whose body is not
    JSON holding [data.id] makes [create_workflow] raise.  A 200 listing
    response makes [workflow_exists] raise when its body is not JSON, is
    not an object or has no [data] member, and when [data] is neither an
    array nor an empty object nor an empty string; with an empty object
    or an empty string under [data] it returns false.  Neither call
    raises when a 201 creation body holds [data.id] and a 200 listing
    body holds a [data] array of records that each have a [name]. *)
Theorem success_bodies self name workflow w :
  (∀ r s',
     serve (remote w) (creation_request self workflow) = (Answered r, s') →
     status_code r = 201 →
     (¬ creation_shape r → raises (fst (create_workflow self workflow w)))
     ∧ (creation_shape r →
        ∃ id, fst (create_workflow self workflow w) = Ok id))
  ∧ (∀ r s',
       serve (remote w) (listing_request self) = (Answered r, s') →
       status_code r = 200 →
       (data_member r = None → raises (fst (workflow_exists self name w)))
       ∧ (∀ v, data_member r = Some v →
            (∀ ws, v ≠ JArr ws) → v ≠ JObj [] → v ≠ JStr "" →
            raises (fst (workflow_exists self name w)))
       ∧ (∀ v, data_member r = Some v → v = JObj [] ∨ v = JStr "" →
            fst (workflow_exists self name w) = Ok false)
       ∧ (listing_shape r →
          ∃ b, fst (workflow_exists self name w) = Ok b)).
Proof.
  split.
  - intros r s' Hserve Hst. rewrite create_workflow_run, Hserve. simpl.
    split.
    + apply creation_verdict_unshaped, Hst.
    + intros Hshape. apply creation_verdict_shaped. done.
  - intros r s' Hserve Hst. rewrite workflow_exists_run, Hserve. simpl.
    split; [|split; [|split]].
    + apply data_member_none, Hst.
    + intros v. apply listing_verdict_not_iterable, Hst.
    + intros v. apply listing_verdict_empty, Hst.
    + intros Hshape. apply listing_verdict_shaped. done.
Qed.

(** *** What goes out on the wire *)

Lemma sends_only_ret {A} P (a : A) : sends_only P (ret a).
Proof. intros w. exists []. simpl. rewrite app_nil_r. done. Qed.

Lemma sends_only_lift {A} P (r : result A) : sends_only P (lift r).
Proof. intros w. exists []. simpl. rewrite app_nil_r. done. Qed.

Lemma sends_only_print P line : sends_only P (print line).
Proof. intros w. exists []. simpl. rewrite app_nil_r. done. Qed.

Lemma sends_only_send (P : request → Prop) rq : P rq → sends_only P (send rq).
Proof.
  intros HP w. exists [rq]. unfold send.
  destruct (serve (remote w) rq) as [[r|] s']; simpl; split; auto.
Qed.

Lemma sends_only_bind {A B} P (c : M A) (k : A → M B) :
  sends_only P c → (∀ a, sends_only P (k a)) → sends_only P (bind c k).
Proof.
  intros Hc Hk w. unfold bind. destruct (Hc w) as (new & Hnew & HP).
  destruct (c w) as [[a|e] w1]; simpl in *.
  - destruct (Hk a w1) as (new' & Hnew' & HP').
    exists (new ++ new'). rewrite Hnew', Hnew, app_assoc.
    split; [reflexivity|]. apply Forall_app; done.
  - eauto.
Qed.

Lemma sends_only_workflow_exists (P : request → Prop) self name :
  P (listing_request self) → sends_only P (workflow_exists self name).
Proof.
  intros HP w. exists [listing_request self]. rewrite workflow_exists_run.
  destruct (serve (remote w) (listing_request self)) as [[r|] s'];
    split; auto.
Qed.

Lemma sends_only_create_workflow (P : request → Prop) self workflow :
  P (creation_request self workflow) →
  sends_only P (create_workflow self workflow).
Proof.
  intros HP w. exists [creation_request self workflow].
  rewrite create_workflow_run.
  destruct (serve (remote w) (creation_request self workflow))
    as [[r|] s']; split; auto.
Qed.

Lemma sends_only_check_then_create (P : request → Prop) self name workflow :
  P (listing_request self) → P (creation_request self workflow) →
  sends_only P (check_then_create self name workflow).
Proof.
  intros Hlisting Hcreation. unfold check_then_create. apply sends_only_bind.
  - apply sends_only_workflow_exists, Hlisting.
  - intros [|]; [apply sends_only_print|].
    apply sends_only_bind; [apply sends_only_create_workflow, Hcreation|].
    intros id. destruct (Py.truthy id);
      [apply sends_only_print|apply sends_only_ret].
Qed.

Lemma issued_listing self : issued_by self (listing_request self).
Proof. repeat split. Qed.

Lemma issued_creation self workflow :
  issued_by self (creation_request self workflow).
Proof. repeat split. Qed.

Lemma sends_only_setup_all_workflows self :
  sends_only (issued_by self) (setup_all_workflows self).
Proof.
  unfold setup_all_workflows.
  do 2 (apply sends_only_bind; [apply sends_only_print|intros ?]).
  do 4 (apply sends_only_bind;
        [apply sends_only_check_then_create;
         [apply issued_listing|apply issued_creation]|intros ?]).
  repeat (apply sends_only_bind; [apply sends_only_print|intros ?]).
  apply sends_only_print.
Qed.

(** *** The flow of one template and of the driver *)

Lemma print_run line (w : world Remote) :
  print line w = (Ok tt, advance w (remote w) [] [line]).
Proof. unfold print, advance. rewrite app_nil_r. reflexivity. Qed.

Lemma advance_advance (w : world Remote) s1 rqs1 lines1 s2 rqs2 lines2 :
  advance (advance w s1 rqs1 lines1) s2 rqs2 lines2
  = advance w s2 (rqs1 ++ rqs2) (lines1 ++ lines2).
Proof. unfold advance. simpl. rewrite !app_assoc. reflexivity. Qed.

Lemma check_then_create_run self name workflow w :
  check_then_create self name workflow w =
  match serve (remote w) (listing_request self) with
  | (Unreachable, s1) =>
      (Raise ConnectionError, advance w s1 [listing_request self] [])
  | (Answered r1, s1) =>
      match listing_verdict r1 name with
      | Raise e => (Raise e, advance w s1 [listing_request self] [])
      | Ok true =>
          (Ok tt, advance w s1 [listing_request self] [exists_line name])
      | Ok false =>
          let rqs := [listing_request self;
                      creation_request self workflow] in
          match serve s1 (creation_request self workflow) with
          | (Unreachable, s2) => (Raise ConnectionError, advance w s2 rqs [])
          | (Answered r2, s2) =>
              match creation_verdict r2 with
              | (Raise e, lines) => (Raise e, advance w s2 rqs lines)
              | (Ok id, lines) =>
                  (Ok tt,
                   advance w s2 rqs
                     (lines ++ if Py.truthy id
                               then [created_line py_repr name id]
                               else []))
              end
          end
      end
  end.
Proof.
  unfold check_then_create, bind. rewrite workflow_exists_run.
  destruct (serve (remote w) (listing_request self)) as [[r1|] s1];
    [|reflexivity].
  destruct (listing_verdict r1 name) as [[|]|]; [| |reflexivity].
  - rewrite print_run, advance_advance. reflexivity.
  - rewrite create_workflow_run. simpl.
    destruct (serve s1 (creation_request self workflow)) as [[r2|] s2];
      rewrite advance_advance; [|reflexivity].
    destruct (creation_verdict r2) as [[id|e] lines]; simpl; [|reflexivity].
    destruct (Py.truthy id).
    + rewrite print_run, advance_advance. reflexivity.
    + unfold ret. rewrite !app_nil_r. reflexivity.
Qed.

Lemma setup_all_workflows_run self :
  setup_all_workflows self =
  bind (print "Setting up n8n workflows for SHAAD...") (λ _,
  bind (print rule) (λ _,
  bind (check_then_create self "SHAAD_Send_Notification"
          (Templates.send_notification "SHAAD_Send_Notification")) (λ _,
  bind (check_then_create self "SHAAD_Web_Search"
          (Templates.web_search "SHAAD_Web_Search")) (λ _,
  bind (check_then_create self "SHAAD_Home_Control"
          (Templates.home_automation "SHAAD_Home_Control")) (λ _,
  bind (check_then_create self "SHAAD_Schedule_Task"
          (Templates.schedule_task "SHAAD_Schedule_Task")) (λ _,
  bind (print rule) (λ _,
  bind (print "✓ Workflow setup complete!") (λ _,
  bind (print (Templates.nl +:+ "Available workflows:")) (λ _,
  bind (print "- SHAAD_Send_Notification: Send notifications via email, webhook, etc.") (λ _,
  bind (print "- SHAAD_Web_Search: Search the web for information") (λ _,
  bind (print "- SHAAD_Home_Control: Control smart home devices") (λ _,
  print "- SHAAD_Schedule_Task: Schedule tasks and reminders")))))))))))).
Proof. reflexivity. Qed.

Lemma footer_run (w : world Remote) :
  footer w = (Ok tt, advance w (remote w) [] footer_lines).
Proof.
  unfold footer, bind. rewrite !print_run. simpl. rewrite !advance_advance.
  reflexivity.
Qed.

Lemma header_run {A} (k : M A) (w : world Remote) :
  bind (print "Setting up n8n workflows for SHAAD...") (λ _,
  bind (print rule) (λ _, k)) w
  = k (advance w (remote w) [] header_lines).
Proof.
  unfold bind. rewrite !print_run. simpl. rewrite !advance_advance.
  reflexivity.
Qed.

(** *** Credentials *)

Lemma sends_only_weaken {A} (P Q : request → Prop) (c : M A) :
  (∀ rq, P rq → Q rq) → sends_only P c → sends_only Q c.
Proof.
  intros HPQ Hc w. destruct (Hc w) as (new & Hnew & HP).
  exists new. split; [assumption|]. eapply Forall_impl; eauto.
Qed.

Lemma sends_first_bind {A B} P rq (c : M A) (k : A → M B) :
  sends_first rq c → (∀ a, sends_only P (k a)) → sends_first rq (bind c k).
Proof.
  intros Hc Hk w. unfold bind. destruct (Hc w) as (rest & Hrest).
  destruct (c w) as [[a|e] w1]; simpl in *; [|eauto].
  destruct (Hk a w1) as (new & Hnew & _).
  exists (rest ++ new). rewrite Hnew, Hrest, <- app_assoc. reflexivity.
Qed.

Lemma sends_first_workflow_exists self name :
  sends_first (listing_request self) (workflow_exists self name).
Proof.
  intros w. exists []. rewrite workflow_exists_run.
  destruct (serve (remote w) (listing_request self)) as [[r|] s'];
    reflexivity.
Qed.

Lemma sends_first_setup_all_workflows self :
  sends_first (listing_request self) (setup_all_workflows self).
Proof.
  intros w. rewrite setup_all_workflows_run, header_run.
  match goal with
  | |- ∃ rest, sent (snd (bind ?c ?k _)) = _ =>
      assert (Hfirst : sends_first (listing_request self) (bind c k))
  end.
  { apply (sends_first_bind (issued_by self)).
    - unfold check_then_create.
      apply (sends_first_bind (issued_by self)).
      + apply sends_first_workflow_exists.
      + intros [|]; [apply sends_only_print|].
        apply sends_only_bind;
          [apply sends_only_create_workflow, issued_creation|].
        intros id. destruct (Py.truthy id);
          [apply sends_only_print|apply sends_only_ret].
    - intros _.
      do 3 (apply sends_only_bind;
            [apply sends_only_check_then_create;
         [apply issued_listing|apply issued_creation]|intros ?]).
      repeat (apply sends_only_bind; [apply sends_only_print|intros ?]).
      apply sends_only_print. }
  destruct (Hfirst (advance w (remote w) [] header_lines)) as [rest Hrest].
  exists rest. rewrite Hrest. simpl. rewrite app_nil_r. reflexivity.
Qed.

Lemma init_with_api_key env key :
  env !! "N8N_API_KEY" = Some key → key ≠ "" →
  headers (init env) !! "X-N8N-API-KEY" = Some key
  ∧ auth (init env) = None.
Proof.
  intros Hkey Hne. unfold init, getenv_truthy, getenv, Py.truthy_str.
  rewrite Hkey. destruct (String.eqb_spec key ""); [contradiction|].
  simpl. split; [apply lookup_insert_eq|reflexivity].
Qed.

Lemma init_without_api_key env :
  no_api_key env →
  headers (init env) !! "X-N8N-API-KEY" = None
  ∧ auth (init env)
    = if Py.truthy_str (getenv env "N8N_BASIC_AUTH_USER" "")
         && Py.truthy_str (getenv env "N8N_BASIC_AUTH_PASSWORD" "")
      then Some (getenv env "N8N_BASIC_AUTH_USER" "",
                 getenv env "N8N_BASIC_AUTH_PASSWORD" "")
      else None.
Proof.
  intros Hno. unfold init, getenv_truthy.
  destruct Hno as [-> | ->]; simpl; split; reflexivity.
Qed.

(** C4, as the code has it: the header set and the credentials are fixed
    by [init] and every request of a run carries exactly them.  With
    N8N_API_KEY set to a non-empty value every request carries it in the
    X-N8N-API-KEY header and no basic-auth credentials.  With N8N_API_KEY
    unset or empty, every request carries N8N_BASIC_AUTH_USER and
    N8N_BASIC_AUTH_PASSWORD as basic-auth credentials when both are set
    and non-empty, and no credentials otherwise, and never the API-key
    header. *)
Theorem authentication_resolved env w :
  ∃ rest,
    sent (snd (setup_all_workflows (init env) w))
      = sent w ++ listing_request (init env) :: rest
    ∧ Forall (λ rq, req_headers rq = headers (init env)
                    ∧ req_auth rq = auth (init env))
        (listing_request (init env) :: rest)
    ∧ (∀ key, env !! "N8N_API_KEY" = Some key → key ≠ "" →
       Forall (λ rq, req_headers rq !! "X-N8N-API-KEY" = Some key
                     ∧ req_auth rq = None)
         (listing_request (init env) :: rest))
    ∧ (no_api_key env →
       ∀ user password,
         env !! "N8N_BASIC_AUTH_USER" = Some user →
         env !! "N8N_BASIC_AUTH_PASSWORD" = Some password →
         user ≠ "" → password ≠ "" →
         Forall (λ rq, req_auth rq = Some (user, password)
                       ∧ req_headers rq !! "X-N8N-API-KEY" = None)
           (listing_request (init env) :: rest))
    ∧ (no_api_key env →
       getenv env "N8N_BASIC_AUTH_USER" "" = ""
       ∨ getenv env "N8N_BASIC_AUTH_PASSWORD" "" = "" →
       Forall (λ rq, req_auth rq = None
                     ∧ req_headers rq !! "X-N8N-API-KEY" = None)
         (listing_request (init env) :: rest)).
Proof.
  destruct (sends_first_setup_all_workflows (init env) w) as (rest & Hrest).
  destruct (sends_only_setup_all_workflows (init env) w)
    as (new & Hnew & Hissued).
  rewrite Hrest in Hnew. apply app_inv_head in Hnew. subst new.
  exists rest. split; [assumption|].
  assert (Hall : Forall (λ rq, req_headers rq = headers (init env)
                               ∧ req_auth rq = auth (init env))
                   (listing_request (init env) :: rest)).
  { eapply Forall_impl; [exact Hissued|]. intros rq (_ & Hh & Ha). done. }
  split; [assumption|]. split; [|split].
  - intros key Hkey Hne.
    destruct (init_with_api_key env key Hkey Hne) as [Hh Ha].
    eapply Forall_impl; [exact Hall|]. intros rq [-> ->]. done.
  - intros Hno user password Hu Hp Hune Hpne.
    destruct (init_without_api_key env Hno) as [Hh Ha].
    unfold getenv in Ha. rewrite Hu, Hp in Ha. unfold Py.truthy_str in Ha.
    destruct (String.eqb_spec user ""); [contradiction|].
    destruct (String.eqb_spec password ""); [contradiction|].
    simpl in Ha.
    eapply Forall_impl; [exact Hall|]. intros rq [-> ->]. done.
  - intros Hno Hempty.
    destruct (init_without_api_key env Hno) as [Hh Ha].
    assert (Hnone : auth (init env) = None).
    { rewrite Ha. unfold Py.truthy_str.
      destruct Hempty as [-> | ->]; simpl; [reflexivity|].
      rewrite andb_false_r. reflexivity. }
    eapply Forall_impl; [exact Hall|]. intros rq [-> ->]. done.
Qed.

(** *** Two runs against a stateful service *)

Lemma remote_advance (w : world Remote) s rqs lines :
  remote (advance w s rqs lines) = s.
Proof. reflexivity. Qed.

Lemma sent_advance (w : world Remote) s rqs lines :
  sent (advance w s rqs lines) = sent w ++ rqs.
Proof. reflexivity. Qed.

Lemma stdout_advance (w : world Remote) s rqs lines :
  stdout (advance w s rqs lines) = stdout w ++ lines.
Proof. reflexivity. Qed.

Lemma advance_nothing (w : world Remote) : advance w (remote w) [] [] = w.
Proof. destruct w. unfold advance. simpl. rewrite !app_nil_r. done. Qed.

Lemma record_name_spec record name :
  record_name record = Some name
  ↔ Py.getitem record "name" = Ok (JStr name).
Proof.
  unfold record_name.
  destruct (Py.getitem record "name") as [[]|]; split; congruence.
Qed.

Lemma elem_of_listed_names name records :
  name ∈ listed_names records
  ↔ ∃ record, record ∈ records
              ∧ Py.getitem record "name" = Ok (JStr name).
Proof.
  unfold listed_names. rewrite list_elem_of_omap.
  split; intros (record & Hin & Hname); exists record;
    (split; [assumption|]); apply record_name_spec; assumption.
Qed.

Lemma listing_verdict_listed_names r name body records :
  status_code r = 200 → body_json r = Some body →
  Py.getitem body "data" = Ok (JArr records) → Forall named records →
  listing_verdict r name = Ok (bool_decide (name ∈ listed_names records)).
Proof.
  intros Hst Hbody Hdata Hnamed.
  destruct (listing_verdict_listed r name body records Hst Hbody Hdata
              Hnamed) as (b & -> & Hiff).
  f_equal. rewrite <- elem_of_listed_names in Hiff.
  destruct b; symmetry.
  - apply bool_decide_eq_true, Hiff. reflexivity.
  - apply bool_decide_eq_false. intros Hin. apply Hiff in Hin. discriminate.
Qed.

Lemma check_then_create_stateful records self name workflow w :
  stateful records → Forall named (records (remote w)) →
  keyed (name, workflow) →
  ∃ w',
    check_then_create self name workflow w = (Ok tt, w')
    ∧ Forall named (records (remote w'))
    ∧ listed_names (records (remote w'))
      = listed_names (records (remote w))
        ++ (if bool_decide (name ∈ listed_names (records (remote w)))
            then [] else [name])
    ∧ sent w'
      = sent w ++ listing_request self
                 :: (if bool_decide (name ∈ listed_names (records (remote w)))
                     then [] else [creation_request self workflow])
    ∧ (name ∈ listed_names (records (remote w)) →
       w' = advance w (remote w) [listing_request self] [exists_line name]).
Proof.
  intros [Hlist Hcreate] Hnamed Hkeyed. rewrite check_then_create_run.
  destruct (Hlist (remote w) (listing_request self) eq_refl)
    as (r1 & body & -> & Hst1 & Hbody1 & Hdata1).
  rewrite (listing_verdict_listed_names r1 name body (records (remote w)))
    by assumption.
  destruct (bool_decide (name ∈ listed_names (records (remote w))))
    eqn:Hlisted.
  - eexists. split; [reflexivity|]. rewrite remote_advance, app_nil_r.
    repeat split; try assumption; reflexivity.
  - destruct (Hcreate (remote w) (creation_request self workflow) workflow
                name eq_refl eq_refl Hkeyed)
      as (r2 & s2 & record & -> & Hst2 & Hshape2 & Hrecords & Hrecord).
    destruct Hshape2 as (body2 & data & id & Hb & Hd & Hid).
    cbv zeta.
    rewrite (creation_verdict_created r2 body2 data id) by assumption.
    eexists. split; [reflexivity|]. rewrite remote_advance, Hrecords.
    split; [|split; [|split]].
    + apply Forall_app. split; [assumption|].
      constructor; [|constructor]. exists (JStr name). assumption.
    + unfold listed_names. rewrite omap_app. f_equal. simpl.
      apply record_name_spec in Hrecord. rewrite Hrecord. reflexivity.
    + reflexivity.
    + intros Hin. apply bool_decide_eq_false in Hlisted. contradiction.
Qed.

Lemma missing_cons records t ts :
  missing records (t :: ts)
  = (if bool_decide (fst t ∈ listed_names records) then [] else [t])
    ++ missing records ts.
Proof.
  unfold missing. rewrite filter_cons.
  destruct (decide (fst t ∉ listed_names records)) as [Hout|Hin].
  - rewrite bool_decide_eq_false_2 by assumption. reflexivity.
  - rewrite bool_decide_eq_true_2; [reflexivity|].
    destruct (decide (fst t ∈ listed_names records)); [assumption|].
    contradiction.
Qed.

Lemma missing_after records records' name ts :
  listed_names records'
  = listed_names records
    ++ (if bool_decide (name ∈ listed_names records) then [] else [name]) →
  name ∉ fst <$> ts →
  missing records' ts = missing records ts.
Proof.
  intros Hnames. induction ts as [|t ts IH]; [reflexivity|].
  rewrite fmap_cons, not_elem_of_cons. intros [Hne Hout].
  rewrite !missing_cons, IH by assumption. f_equal. rewrite Hnames.
  destruct (bool_decide (name ∈ listed_names records));
    [rewrite app_nil_r; reflexivity|].
  destruct (decide (fst t ∈ listed_names records)) as [Hin|Hnin].
  - rewrite !bool_decide_eq_true_2; [reflexivity|assumption|].
    apply elem_of_app. left. assumption.
  - rewrite !bool_decide_eq_false_2; [reflexivity|assumption|].
    rewrite elem_of_app, list_elem_of_singleton. intros [?|?]; congruence.
Qed.

Lemma posted_app rqs1 rqs2 :
  posted (rqs1 ++ rqs2) = posted rqs1 ++ posted rqs2.
Proof. apply omap_app. Qed.

Lemma provision_then_stateful records self k ts :
  stateful records →
  ∀ w, Forall keyed ts → NoDup (fst <$> ts) →
       Forall named (records (remote w)) →
       ∃ w' new,
         provision_then self ts k w = k w'
         ∧ Forall named (records (remote w'))
         ∧ listed_names (records (remote w'))
           = listed_names (records (remote w))
             ++ (fst <$> missing (records (remote w)) ts)
         ∧ sent w' = sent w ++ new
         ∧ posted new = snd <$> missing (records (remote w)) ts.
Proof.
  intros Hstateful.
  induction ts as [|[name workflow] ts IH]; intros w Hkeyed Hnodup Hnamed.
  - exists w, []. simpl. rewrite !app_nil_r. done.
  - apply Forall_cons in Hkeyed as [Hkt Hkeyed].
    rewrite fmap_cons in Hnodup. apply NoDup_cons in Hnodup as [Hout Hnodup].
    destruct (check_then_create_stateful records self name workflow w
                Hstateful Hnamed Hkt)
      as (w1 & Hrun1 & Hnamed1 & Hnames1 & Hsent1 & _).
    destruct (IH w1 Hkeyed Hnodup Hnamed1)
      as (w' & new & Hrun & Hnamed' & Hnames & Hsent & Hposted).
    rewrite (missing_after _ _ name ts Hnames1 Hout) in Hnames, Hposted.
    exists w'. eexists. cbn [provision_then foldr fst snd].
    unfold bind at 1. rewrite Hrun1. fold (provision_then self ts k).
    split; [exact Hrun|]. split; [assumption|].
    rewrite missing_cons. cbn [fst].
    split; [|split].
    + rewrite Hnames, Hnames1, fmap_app, <- app_assoc. f_equal. f_equal.
      destruct (bool_decide (name ∈ listed_names (records (remote w))));
        reflexivity.
    + rewrite Hsent, Hsent1, <- app_assoc. reflexivity.
    + rewrite posted_app, Hposted, fmap_app. f_equal.
      destruct (bool_decide (name ∈ listed_names (records (remote w))));
        reflexivity.
Qed.

Lemma provision_then_listed records self k ts :
  stateful records →
  ∀ w, Forall keyed ts → Forall named (records (remote w)) →
       Forall (λ t, fst t ∈ listed_names (records (remote w))) ts →
       provision_then self ts k w
       = k (advance w (remote w)
              (replicate (length ts) (listing_request self))
              ((λ t, exists_line (fst t)) <$> ts)).
Proof.
  intros Hstateful.
  induction ts as [|[name workflow] ts IH]; intros w Hkeyed Hnamed Hlisted.
  - simpl. rewrite advance_nothing. reflexivity.
  - apply Forall_cons in Hkeyed as [Hkt Hkeyed].
    apply Forall_cons in Hlisted as [Hin Hlisted].
    destruct (check_then_create_stateful records self name workflow w
                Hstateful Hnamed Hkt)
      as (w1 & Hrun1 & Hnamed1 & _ & _ & Hw1).
    specialize (Hw1 Hin). subst w1.
    cbn [provision_then foldr fst snd].
    unfold bind at 1. rewrite Hrun1. fold (provision_then self ts k).
    rewrite IH by assumption. rewrite advance_advance, remote_advance.
    reflexivity.
Qed.

Lemma templates_keyed : Forall keyed templates.
Proof. repeat constructor. Qed.

Lemma templates_distinct : NoDup (fst <$> templates).
Proof.
  simpl. repeat (apply NoDup_cons; split;
                 [rewrite ?not_elem_of_cons; repeat split;
                  try discriminate; apply not_elem_of_nil|]).
  apply NoDup_nil. done.
Qed.

Lemma missing_names_distinct records :
  NoDup (fst <$> missing records templates).
Proof.
  apply (sublist_NoDup _ (fst <$> templates)); [apply templates_distinct|].
  apply fmap_sublist, sublist_filter.
Qed.

Lemma listed_after_run records t :
  t ∈ templates →
  fst t ∈ listed_names records ++ (fst <$> missing records templates).
Proof.
  intros Hin. apply elem_of_app.
  destruct (decide (fst t ∈ listed_names records)) as [Hlisted|Hnot];
    [left; assumption|right].
  apply list_elem_of_fmap. exists t. split; [reflexivity|].
  apply list_elem_of_filter. split; assumption.
Qed.

Lemma setup_all_workflows_provision self w :
  setup_all_workflows self w
  = provision_then self templates footer
      (advance w (remote w) [] header_lines).
Proof. rewrite setup_all_workflows_run, header_run. reflexivity. Qed.

(** C1: against a stateful service, whose listing call answers 200 every
    time with the records it holds and whose creation call stores what is
    submitted, two runs of [setup_all_workflows] in a row both return.
    The first submits for creation exactly the templates whose name was
    not listed, each once, and those names are listed afterwards.  The
    second sends the four listing requests and no creation request,
    prints "already exists" for each of the four names and leaves the
    service as it was.  When no two records shared a name before, no two
    share one after. *)
Theorem setup_twice_creates_once records self w :
  stateful records → Forall named (records (remote w)) →
  ∃ w1 w2 new,
    setup_all_workflows self w = (Ok tt, w1)
    ∧ setup_all_workflows self w1 = (Ok tt, w2)
    ∧ sent w1 = sent w ++ new
    ∧ posted new = snd <$> missing (records (remote w)) templates
    ∧ listed_names (records (remote w1))
      = listed_names (records (remote w))
        ++ (fst <$> missing (records (remote w)) templates)
    ∧ sent w2 = sent w1 ++ replicate 4 (listing_request self)
    ∧ stdout w2
      = stdout w1 ++ header_lines
        ++ ((λ t, exists_line (fst t)) <$> templates) ++ footer_lines
    ∧ remote w2 = remote w1
    ∧ (NoDup (listed_names (records (remote w))) →
       NoDup (listed_names (records (remote w2)))).
Proof.
  intros Hstateful Hnamed.
  destruct (provision_then_stateful records self footer templates Hstateful
              (advance w (remote w) [] header_lines)
              templates_keyed templates_distinct Hnamed)
    as (w' & new & Hrun1 & Hnamed1 & Hnames1 & Hsent1 & Hposted1).
  rewrite remote_advance in Hnames1, Hposted1.
  rewrite sent_advance, app_nil_r in Hsent1.
  set (w1 := advance w' (remote w') [] footer_lines).
  assert (Hlisted : Forall (λ t, fst t ∈ listed_names
                      (records (remote
                         (advance w1 (remote w1) [] header_lines))))
                      templates).
  { apply Forall_forall. intros t Hin. unfold w1.
    rewrite !remote_advance, Hnames1.
    apply listed_after_run, Hin. }
  exists w1, (advance w1 (remote w1) (replicate 4 (listing_request self))
                (header_lines
                 ++ ((λ t, exists_line (fst t)) <$> templates)
                 ++ footer_lines)), new.
  split; [rewrite setup_all_workflows_provision, Hrun1; apply footer_run|].
  split.
  { rewrite setup_all_workflows_provision.
    rewrite (provision_then_listed records self footer templates Hstateful)
      by (try apply templates_keyed; assumption).
    rewrite footer_run, !advance_advance, !remote_advance, app_nil_r.
    reflexivity. }
  split; [unfold w1; rewrite sent_advance, app_nil_r; exact Hsent1|].
  split; [exact Hposted1|]. split; [exact Hnames1|].
  do 3 (split; [reflexivity|]).
  intros Hnodup. unfold w1. rewrite !remote_advance, Hnames1.
  apply NoDup_app.
  split; [assumption|]. split; [|apply missing_names_distinct].
  intros name Hin (t & -> & Ht)%list_elem_of_fmap.
  apply list_elem_of_filter in Ht as [Hout _]. contradiction.
Qed.

(** *** The flows of a run, tied to what the service answers *)

Lemma created_id_verdict r id :
  created_id r id → creation_verdict r = (Ok id, []).
Proof.
  intros (Hst & body & data & Hbody & Hdata & Hid).
  apply (creation_verdict_created r body data id); assumption.
Qed.

Lemma creation_fault_verdict r e :
  creation_fault r e → creation_verdict r = (Raise e, []).
Proof.
  intros Hfault. pose proof Hfault as [Hst _].
  apply creation_verdict_raise in Hfault.
  pose proof (creation_verdict_lines r Hst) as Hlines.
  destruct (creation_verdict r) as [res lines]. simpl in *. congruence.
Qed.

Lemma check_then_create_step self name workflow w w' :
  check_then_create self name workflow w = (Ok tt, w')
  ↔ flow_step self name workflow w w'.
Proof.
  rewrite check_then_create_run. split.
  - destruct (serve (remote w) (listing_request self)) as [[r1|] s1] eqn:Hs1;
      [|discriminate].
    destruct (listing_verdict r1 name) as [[|]|e] eqn:Hv; [| |discriminate].
    + intros [= <-]. apply listing_verdict_true in Hv.
      exact (step_exists self name workflow w _ r1 s1 Hs1 Hv eq_refl).
    + cbv zeta. apply listing_verdict_false in Hv.
      destruct (serve s1 (creation_request self workflow))
        as [[r2|] s2] eqn:Hs2; [|discriminate].
      destruct (Z.eq_dec (status_code r2) 201) as [Hst|Hst].
      * pose proof (creation_verdict_lines r2 Hst) as Hlines.
        pose proof (creation_verdict_id r2) as Hid.
        destruct (creation_verdict r2) as [[id|e] lines]; simpl in *;
          [|discriminate].
        subst lines. specialize (Hid id Hst). apply proj1 in Hid.
        specialize (Hid eq_refl).
        destruct (Py.truthy id) eqn:Htruthy; intros [= <-].
        -- exact (step_created self name workflow w _ r1 r2 s1 s2 id
                    Hs1 Hv Hs2 Hid Htruthy eq_refl).
        -- exact (step_silent self name workflow w _ r1 r2 s1 s2 id
                    Hs1 Hv Hs2 Hid Htruthy eq_refl).
      * rewrite creation_verdict_failed by assumption. intros [= <-].
        exact (step_failed self name workflow w _ r1 r2 s1 s2
                 Hs1 Hv Hs2 Hst eq_refl).
  - intros [r1 s1 Hs1 Hl ->
           |r1 r2 s1 s2 id Hs1 Hu Hs2 Hid Htruthy ->
           |r1 r2 s1 s2 id Hs1 Hu Hs2 Hid Htruthy ->
           |r1 r2 s1 s2 Hs1 Hu Hs2 Hst ->]; rewrite Hs1.
    + apply listing_verdict_true in Hl. rewrite Hl. reflexivity.
    + apply listing_verdict_false in Hu. rewrite Hu. cbv zeta.
      rewrite Hs2, (created_id_verdict r2 id Hid), Htruthy. reflexivity.
    + apply listing_verdict_false in Hu. rewrite Hu. cbv zeta.
      rewrite Hs2, (created_id_verdict r2 id Hid), Htruthy. reflexivity.
    + apply listing_verdict_false in Hu. rewrite Hu. cbv zeta.
      rewrite Hs2, creation_verdict_failed by assumption. reflexivity.
Qed.

Lemma check_then_create_fault self name workflow w e w' :
  check_then_create self name workflow w = (Raise e, w')
  ↔ flow_fault self name workflow w e w'.
Proof.
  rewrite check_then_create_run. split.
  - destruct (serve (remote w) (listing_request self)) as [[r1|] s1] eqn:Hs1.
    + destruct (listing_verdict r1 name) as [[|]|e'] eqn:Hv; [discriminate| |].
      * cbv zeta. apply listing_verdict_false in Hv.
        destruct (serve s1 (creation_request self workflow))
          as [[r2|] s2] eqn:Hs2.
        -- pose proof (creation_verdict_raise r2) as Hraise.
           destruct (Z.eq_dec (status_code r2) 201) as [Hst|Hst].
           ++ pose proof (creation_verdict_lines r2 Hst) as Hlines.
              destruct (creation_verdict r2) as [[id|e'] lines]; simpl in *;
                [discriminate|].
              subst lines. intros [= <- <-].
              apply (fault_creation self name workflow w e' _ r1 r2 s1 s2
                       Hs1 Hv Hs2); [|reflexivity].
              apply Hraise. reflexivity.
           ++ rewrite creation_verdict_failed by assumption. discriminate.
        -- intros [= <- <-].
           exact (fault_creation_unreachable self name workflow w _ _
                    r1 s1 s2 Hs1 Hv Hs2 eq_refl eq_refl).
      * intros [= <- <-]. apply listing_verdict_raise in Hv.
        exact (fault_listing self name workflow w e' _ r1 s1 Hs1 Hv eq_refl).
    + intros [= <- <-].
      exact (fault_listing_unreachable self name workflow w _ _ s1
               Hs1 eq_refl eq_refl).
  - intros [s1 Hs1 -> ->
           |r1 s1 Hs1 Hfault ->
           |r1 s1 s2 Hs1 Hu Hs2 -> ->
           |r1 r2 s1 s2 Hs1 Hu Hs2 Hfault ->]; rewrite Hs1.
    + reflexivity.
    + apply listing_verdict_raise in Hfault. rewrite Hfault. reflexivity.
    + apply listing_verdict_false in Hu. rewrite Hu. cbv zeta.
      rewrite Hs2. reflexivity.
    + apply listing_verdict_false in Hu. rewrite Hu. cbv zeta.
      rewrite Hs2, (creation_fault_verdict r2 e Hfault). reflexivity.
Qed.

Lemma provision_then_flows self k ts :
  ∀ w w',
    provision_then self ts k w = (Ok tt, w')
    ↔ ∃ w1, flows self ts w w1 ∧ k w1 = (Ok tt, w').
Proof.
  induction ts as [|t ts IH]; intros w w'.
  - simpl. split; [eauto|]. intros (w1 & -> & Hk). exact Hk.
  - cbn [provision_then foldr flows]. fold (provision_then self ts k).
    unfold bind at 1.
    destruct (check_then_create self (fst t) (snd t) w) as [[[]|e] w1]
      eqn:Hflow.
    + rewrite IH. apply check_then_create_step in Hflow. split.
      * intros (w2 & Hrest & Hk). eauto.
      * intros (w2 & (w1' & Hstep & Hrest) & Hk).
        apply check_then_create_step in Hstep.
        apply check_then_create_step in Hflow.
        rewrite Hflow in Hstep. injection Hstep as <-. eauto.
    + split; [discriminate|].
      intros (w2 & (w1' & Hstep & _) & _).
      apply check_then_create_step in Hstep. congruence.
Qed.

Lemma provision_then_faults self k ts :
  ∀ w e w',
    provision_then self ts k w = (Raise e, w')
    ↔ (∃ done t rest w1,
         ts = done ++ t :: rest
         ∧ flows self done w w1
         ∧ flow_fault self (fst t) (snd t) w1 e w')
      ∨ (∃ w1, flows self ts w w1 ∧ k w1 = (Raise e, w')).
Proof.
  induction ts as [|t ts IH]; intros w e w'.
  - simpl. split.
    + intros Hk. right. eauto.
    + intros [(done & t & rest & w1 & Hts & _)|(w1 & -> & Hk)];
        [destruct done; discriminate|exact Hk].
  - cbn [provision_then foldr flows]. fold (provision_then self ts k).
    unfold bind at 1.
    destruct (check_then_create self (fst t) (snd t) w) as [[[]|e1] w1]
      eqn:Hflow.
    + rewrite IH. pose proof Hflow as Hstep.
      apply check_then_create_step in Hstep. split.
      * intros [(done & t' & rest & w2 & -> & Hdone & Hfault)
               |(w2 & Hrest & Hk)].
        -- left. exists (t :: done), t', rest, w2.
           split; [reflexivity|]. split; [|assumption].
           simpl. eauto.
        -- right. eauto.
      * intros [([|t0 done] & t' & rest & w2 & Hts & Hdone & Hfault)
               |(w2 & (w1' & Hstep' & Hrest) & Hk)].
        -- simpl in Hts, Hdone. injection Hts as <- ->. subst w2.
           apply check_then_create_fault in Hfault. congruence.
        -- simpl in Hts. injection Hts as <- ->.
           destruct Hdone as (w1' & Hstep' & Hdone).
           apply check_then_create_step in Hstep'.
           rewrite Hflow in Hstep'. injection Hstep' as <-.
           left. exists done, t', rest, w2. auto.
        -- apply check_then_create_step in Hstep'.
           rewrite Hflow in Hstep'. injection Hstep' as <-.
           right. eauto.
    + split.
      * intros [= <- <-]. left. exists [], t, ts, w.
        split; [reflexivity|]. split; [reflexivity|].
        apply check_then_create_fault. assumption.
      * intros [([|t0 done] & t' & rest & w2 & Hts & Hdone & Hfault)
               |(w2 & (w1' & Hstep' & _) & _)].
        -- simpl in Hts, Hdone. injection Hts as <- ->. subst w2.
           apply check_then_create_fault in Hfault. congruence.
        -- simpl in Hts. injection Hts as <- ->.
           destruct Hdone as (w1' & Hstep' & _).
           apply check_then_create_step in Hstep'. congruence.
        -- apply check_then_create_step in Hstep'. congruence.
Qed.

Lemma provision_then_served self k ts :
  (∀ w1, ∃ w', k w1 = (Ok tt, w')) →
  ∀ w, served self ts (remote w) →
       ∃ w', provision_then self ts k w = (Ok tt, w').
Proof.
  intros Hk. induction ts as [|t ts IH]; intros w Hserved; [apply Hk|].
  cbn [provision_then foldr]. fold (provision_then self ts k).
  destruct Hserved as (r1 & s1 & Hs1 & Hshape1 & Hlisted & Hunlisted).
  unfold bind at 1. rewrite check_then_create_run, Hs1.
  destruct (listing_verdict_shaped r1 (fst t) Hshape1) as [[|] Hv];
    rewrite Hv.
  - apply IH. rewrite remote_advance. apply Hlisted.
    apply listing_verdict_true. assumption.
  - cbv zeta.
    destruct Hunlisted as (r2 & s2 & Hs2 & Hshape2 & Hserved').
    { intros Hl. apply listing_verdict_true in Hl. congruence. }
    rewrite Hs2. destruct (Z.eq_dec (status_code r2) 201) as [Hst|Hst].
    + destruct (Hshape2 Hst) as (body & data & id & Hb & Hd & Hid).
      rewrite (creation_verdict_created r2 body data id) by assumption.
      apply IH. rewrite remote_advance. assumption.
    + rewrite creation_verdict_failed by assumption.
      apply IH. rewrite remote_advance. assumption.
Qed.

Lemma footer_returns (w1 : world Remote) : ∃ w', footer w1 = (Ok tt, w').
Proof. rewrite footer_run. eauto. Qed.

(** C5, as the code has it: [setup_all_workflows] prints its two header
    texts and runs the check-then-create flow for notification,
    web-search, home-control and schedule-task in this order, each from
    the world the previous one left; it returns exactly when the four
    flows complete, and has then printed the footer.  A flow completes on
    every status: a listing answered with another status than 200 counts
    as not listing the name, and a creation answered with another status
    than 201 prints "Failed to create workflow" and the flow is over.
    Each flow prints one status text, except that a creation answered 201
    with an id that is false in Python (0, empty, null) prints nothing.
    So when the service answers every request the flows make, whatever
    the statuses, with the documented shape on 200 listings and 201
    creations, the run returns. *)
Theorem setup_all_workflows_flows self w :
  (∀ w',
     setup_all_workflows self w = (Ok tt, w')
     ↔ ∃ w1 w2 w3 w4,
         flow_step self "SHAAD_Send_Notification"
           (Templates.send_notification "SHAAD_Send_Notification")
           (advance w (remote w) [] header_lines) w1
         ∧ flow_step self "SHAAD_Web_Search"
             (Templates.web_search "SHAAD_Web_Search") w1 w2
         ∧ flow_step self "SHAAD_Home_Control"
             (Templates.home_automation "SHAAD_Home_Control") w2 w3
         ∧ flow_step self "SHAAD_Schedule_Task"
             (Templates.schedule_task "SHAAD_Schedule_Task") w3 w4
         ∧ w' = advance w4 (remote w4) [] footer_lines)
  ∧ (served self templates (remote w) →
     ∃ w', setup_all_workflows self w = (Ok tt, w'))
  ∧ (∀ name workflow w0 w1,
       flow_step self name workflow w0 w1 →
       (∃ text, stdout w1 = stdout w0 ++ [text]
                ∧ (text = exists_line name
                   ∨ (∃ id, text = created_line py_repr name id)
                   ∨ (∃ body, text = failed_line body)))
       ∨ (stdout w1 = stdout w0
          ∧ ∃ r1 s1 r2 s2 id,
              serve (remote w0) (listing_request self) = (Answered r1, s1)
              ∧ serve s1 (creation_request self workflow)
                = (Answered r2, s2)
              ∧ created_id r2 id
              ∧ Py.truthy id = false)).
Proof.
  rewrite setup_all_workflows_provision. split; [|split].
  - intros w'. rewrite provision_then_flows.
    unfold templates. cbn [flows fst snd]. split.
    + intros (w4 & (w1 & H1 & w2 & H2 & w3 & H3 & w4' & H4 & ->) & Hfooter).
      rewrite footer_run in Hfooter. injection Hfooter as <-.
      exists w1, w2, w3, w4'. auto.
    + intros (w1 & w2 & w3 & w4 & H1 & H2 & H3 & H4 & ->).
      exists w4. split; [|apply footer_run]. eauto 10.
  - intros Hserved. apply provision_then_served; [apply footer_returns|].
    rewrite remote_advance. assumption.
  - intros name workflow w0 w1
      [r1 s1 Hs1 Hl ->
      |r1 r2 s1 s2 id Hs1 Hu Hs2 Hid Htruthy ->
      |r1 r2 s1 s2 id Hs1 Hu Hs2 Hid Htruthy ->
      |r1 r2 s1 s2 Hs1 Hu Hs2 Hst ->].
    + left. eexists. split; [reflexivity|]. left. reflexivity.
    + left. eexists. split; [reflexivity|]. right. left. eauto.
    + right. split; [apply app_nil_r|]. exists r1, s1, r2, s2, id. auto.
    + left. eexists. split; [reflexivity|]. right. right. eauto.
Qed.

(** C6, as the code has it: the entry point exits with code 0 and no
    uncaught exception exactly when the four flows complete, and with
    code 1 on an uncaught exception exactly when, after the flows before
    it completed, one flow ends on that exception; nothing else happens.
    So the exit code is 0 whenever the service answers every request the
    flows make and its 200 listing and 201 creation bodies have the
    documented shape, whatever the statuses.  And it is 1 when, at any
    point of the run, the service cannot be reached for a listing or for
    a creation request (uncaught connection error), when a listing is
    answered 200 with a body that is not JSON or has no [data] member, or
    when a creation is answered 201 without [data.id]. *)
Theorem main_exit_code env w :
  (fst (main env w) = {| exit_code := 0; uncaught := None |}
   ∨ ∃ e, fst (main env w) = {| exit_code := 1; uncaught := Some e |})
  ∧ (fst (main env w) = {| exit_code := 0; uncaught := None |}
     ↔ ∃ w4, flows (init env) templates
               (advance w (remote w) [] header_lines) w4)
  ∧ (∀ e, fst (main env w) = {| exit_code := 1; uncaught := Some e |}
          ↔ ∃ done t rest w1 w2,
              templates = done ++ t :: rest
              ∧ flows (init env) done
                  (advance w (remote w) [] header_lines) w1
              ∧ flow_fault (init env) (fst t) (snd t) w1 e w2)
  ∧ (served (init env) templates (remote w) →
     fst (main env w) = {| exit_code := 0; uncaught := None |})
  ∧ (∀ done t rest w1,
       templates = done ++ t :: rest →
       flows (init env) done (advance w (remote w) [] header_lines) w1 →
       (∀ s1,
          serve (remote w1) (listing_request (init env)) = (Unreachable, s1) →
          fst (main env w)
            = {| exit_code := 1; uncaught := Some ConnectionError |})
       ∧ (∀ r1 s1 s2,
            serve (remote w1) (listing_request (init env))
              = (Answered r1, s1) →
            unlisted r1 (fst t) →
            serve s1 (creation_request (init env) (snd t))
              = (Unreachable, s2) →
            fst (main env w)
              = {| exit_code := 1; uncaught := Some ConnectionError |})
       ∧ (∀ r1 s1,
            serve (remote w1) (listing_request (init env))
              = (Answered r1, s1) →
            status_code r1 = 200 → data_member r1 = None →
            ∃ e, fst (main env w)
                 = {| exit_code := 1; uncaught := Some e |})
       ∧ (∀ r1 s1 r2 s2,
            serve (remote w1) (listing_request (init env))
              = (Answered r1, s1) →
            unlisted r1 (fst t) →
            serve s1 (creation_request (init env) (snd t))
              = (Answered r2, s2) →
            status_code r2 = 201 → ¬ creation_shape r2 →
            ∃ e, fst (main env w)
                 = {| exit_code := 1; uncaught := Some e |})).
Proof.
  assert (Hzero :
    fst (main env w) = {| exit_code := 0; uncaught := None |}
    ↔ ∃ w4, flows (init env) templates
              (advance w (remote w) [] header_lines) w4).
  { unfold main. rewrite setup_all_workflows_provision.
    pose proof (provision_then_flows (init env) footer templates
                  (advance w (remote w) [] header_lines)) as Hflows.
    destruct (provision_then (init env) templates footer
                (advance w (remote w) [] header_lines)) as [[[]|e] w'].
    - split; [|reflexivity]. intros _.
      destruct (proj1 (Hflows w') eq_refl) as (w4 & Hw4 & _). eauto.
    - split; [discriminate|]. intros (w4 & Hw4).
      pose proof (proj2 (Hflows (advance w4 (remote w4) [] footer_lines))
                    (ex_intro _ w4 (conj Hw4 (footer_run w4)))).
      discriminate. }
  assert (Hone : ∀ e,
    fst (main env w) = {| exit_code := 1; uncaught := Some e |}
    ↔ ∃ done t rest w1 w2,
        templates = done ++ t :: rest
        ∧ flows (init env) done (advance w (remote w) [] header_lines) w1
        ∧ flow_fault (init env) (fst t) (snd t) w1 e w2).
  { intros e. unfold main. rewrite setup_all_workflows_provision.
    pose proof (provision_then_faults (init env) footer templates
                  (advance w (remote w) [] header_lines)) as Hfaults.
    destruct (provision_then (init env) templates footer
                (advance w (remote w) [] header_lines)) as [[[]|e'] w'].
    - split; [discriminate|].
      intros (done & t & rest & w1 & w2 & Hts & Hdone & Hfault).
      pose proof (proj2 (Hfaults e w2)
                    (or_introl (ex_intro _ done (ex_intro _ t
                       (ex_intro _ rest (ex_intro _ w1
                          (conj Hts (conj Hdone Hfault)))))))).
      discriminate.
    - split.
      + intros [= <-].
        destruct (proj1 (Hfaults e' w') eq_refl)
          as [(done & t & rest & w1 & Hts & Hdone & Hfault)
             |(w1 & _ & Hfooter)].
        * exists done, t, rest, w1, w'. auto.
        * rewrite footer_run in Hfooter. discriminate.
      + intros (done & t & rest & w1 & w2 & Hts & Hdone & Hfault).
        pose proof (proj2 (Hfaults e w2)
                      (or_introl (ex_intro _ done (ex_intro _ t
                         (ex_intro _ rest (ex_intro _ w1
                            (conj Hts (conj Hdone Hfault)))))))) as Heq.
        injection Heq as -> _. reflexivity. }
  split; [|split; [exact Hzero|split; [exact Hone|split]]].
  - unfold main.
    destruct (setup_all_workflows (init env) w) as [[[]|e] w'];
      [left; reflexivity|right; eauto].
  - intros Hserved. unfold main. rewrite setup_all_workflows_provision.
    destruct (provision_then_served (init env) footer templates
                footer_returns (advance w (remote w) [] header_lines))
      as (w' & ->); [|reflexivity].
    rewrite remote_advance. assumption.
  - intros done t rest w1 Hts Hdone.
    split; [|split; [|split]].
    + intros s1 Hs1. apply Hone. exists done, t, rest, w1. eexists.
      split; [assumption|]. split; [assumption|].
      exact (fault_listing_unreachable (init env) (fst t) (snd t) w1 _ _ s1
               Hs1 eq_refl eq_refl).
    + intros r1 s1 s2 Hs1 Hu Hs2. apply Hone.
      exists done, t, rest, w1. eexists.
      split; [assumption|]. split; [assumption|].
      exact (fault_creation_unreachable (init env) (fst t) (snd t) w1 _ _
               r1 s1 s2 Hs1 Hu Hs2 eq_refl eq_refl).
    + intros r1 s1 Hs1 Hst Hnone.
      destruct (data_member_none r1 (fst t) Hst Hnone) as [e He].
      exists e. apply Hone. exists done, t, rest, w1. eexists.
      split; [assumption|]. split; [assumption|].
      apply listing_verdict_raise in He.
      exact (fault_listing (init env) (fst t) (snd t) w1 e _ r1 s1
               Hs1 He eq_refl).
    + intros r1 s1 r2 s2 Hs1 Hu Hs2 Hst Hshape.
      destruct (creation_verdict_unshaped r2 Hst Hshape) as [e He].
      exists e. apply Hone. exists done, t, rest, w1. eexists.
      split; [assumption|]. split; [assumption|].
      apply creation_verdict_raise in He.
      exact (fault_creation (init env) (fst t) (snd t) w1 e _ r1 r2 s1 s2
               Hs1 Hu Hs2 He eq_refl).
Qed.

(** *** The templates *)

Lemma check_then_create_keyed_on self name workflow :
  keyed (name, workflow) →
  keyed_on self name (check_then_create self name workflow).
Proof.
  intros Hkeyed. split.
  - intros w r s' body ws Hserve Hst Hbody Hdata Hnamed.
    rewrite check_then_create_run, Hserve.
    rewrite (listing_verdict_listed_names r name body ws) by assumption.
    split; intros Hin.
    + rewrite bool_decide_eq_true_2 by assumption. reflexivity.
    + rewrite bool_decide_eq_false_2 by assumption. cbv zeta.
      exists workflow. split; [assumption|].
      destruct (serve s' (creation_request self workflow)) as [[r2|] s2];
        [|reflexivity].
      destruct (creation_verdict r2) as [[id|] lines]; reflexivity.
  - apply sends_only_check_then_create; [left; reflexivity|].
    right. exists workflow. split; [reflexivity|assumption].
Qed.

(** C9: each of the four template functions is the check-then-create
    flow of one name and one definition whose [name] field is that very
    string, so the existence check and the creation use the same key: a
    listing that lists the name stops the function, and every definition
    it submits for creation carries the name. *)
Theorem template_names_agree self :
  same_key self "SHAAD_Send_Notification"
    (Templates.send_notification "SHAAD_Send_Notification")
    (create_send_notification_workflow self)
  ∧ same_key self "SHAAD_Web_Search"
      (Templates.web_search "SHAAD_Web_Search")
      (create_web_search_workflow self)
  ∧ same_key self "SHAAD_Home_Control"
      (Templates.home_automation "SHAAD_Home_Control")
      (create_home_automation_workflow self)
  ∧ same_key self "SHAAD_Schedule_Task"
      (Templates.schedule_task "SHAAD_Schedule_Task")
      (create_schedule_task_workflow self).
Proof.
  unfold same_key.
  repeat match goal with |- _ ∧ _ => split end; try reflexivity.
  - apply (check_then_create_keyed_on self "SHAAD_Send_Notification").
    reflexivity.
  - apply (check_then_create_keyed_on self "SHAAD_Web_Search").
    reflexivity.
  - apply (check_then_create_keyed_on self "SHAAD_Home_Control").
    reflexivity.
  - apply (check_then_create_keyed_on self "SHAAD_Schedule_Task").
    reflexivity.
Qed.

(** *** Beyond the contract: the listing check *)

Lemma any_skip (f : json → result bool) before rest :
  Forall (λ w, f w = Ok false) before →
  Py.any f (before ++ rest) = Py.any f rest.
Proof.
  induction 1 as [|w before Hw _ IH]; [reflexivity|].
  simpl. rewrite Hw. exact IH.
Qed.

Lemma other_name_no_match name record :
  other_name name record →
  match Py.getitem record "name" with
  | Ok v => Ok (Py.eq_str v name)
  | Raise e => Raise e
  end = Ok false.
Proof.
  intros (v & -> & Hne). f_equal.
  destruct (Py.eq_str v name) eqn:Heq; [|reflexivity].
  apply eq_str_true in Heq. contradiction.
Qed.

(** X1: [workflow_exists] reads the listing up to the first record that
    decides: after records that have another name, a record with the
    name makes it return true and a record it cannot read the name of
    makes it raise, whatever follows in the array. *)
Theorem workflow_exists_first_decisive
    self name w r s' body before record after :
  serve (remote w) (listing_request self) = (Answered r, s') →
  status_code r = 200 → body_json r = Some body →
  Py.getitem body "data" = Ok (JArr (before ++ record :: after)) →
  Forall (other_name name) before →
  (Py.getitem record "name" = Ok (JStr name) →
   fst (workflow_exists self name w) = Ok true)
  ∧ (∀ e, Py.getitem record "name" = Raise e →
     fst (workflow_exists self name w) = Raise e).
Proof.
  intros Hserve Hst Hbody Hdata Hbefore.
  rewrite workflow_exists_run, Hserve. simpl.
  unfold listing_verdict, response_json. rewrite Hst, Hbody, Hdata. simpl.
  rewrite any_skip
    by (eapply Forall_impl; [exact Hbefore|apply other_name_no_match]).
  simpl. split.
  - intros ->. simpl. rewrite String.eqb_refl. reflexivity.
  - intros e ->. reflexivity.
Qed.

(** *** Beyond the contract: creation, then listing *)

Lemma listed_names_snoc records record name :
  Py.getitem record "name" = Ok (JStr name) →
  listed_names (records ++ [record]) = listed_names records ++ [name].
Proof.
  intros Hname. unfold listed_names. rewrite omap_app. f_equal. simpl.
  apply record_name_spec in Hname. rewrite Hname. reflexivity.
Qed.

Lemma workflow_exists_stateful records self name w :
  stateful records → Forall named (records (remote w)) →
  workflow_exists self name w
  = (Ok (bool_decide (name ∈ listed_names (records (remote w)))),
     advance w (remote w) [listing_request self] []).
Proof.
  intros [Hlist _] Hnamed. rewrite workflow_exists_run.
  destruct (Hlist (remote w) (listing_request self) eq_refl)
    as (r & body & -> & Hst & Hbody & Hdata).
  rewrite (listing_verdict_listed_names r name body (records (remote w)))
    by assumption.
  reflexivity.
Qed.

(** X2: against a stateful service, a definition that [create_workflow]
    has submitted is found by [workflow_exists] under its name right
    after, and the answer for every other name is what it was before. *)
Theorem create_then_exists records self name workflow w :
  stateful records → Forall named (records (remote w)) →
  keyed (name, workflow) →
  ∃ id w1,
    create_workflow self workflow w = (Ok id, w1)
    ∧ fst (workflow_exists self name w1) = Ok true
    ∧ (∀ other, other ≠ name →
       fst (workflow_exists self other w1)
       = fst (workflow_exists self other w)).
Proof.
  intros Hstateful Hnamed Hkeyed.
  pose proof Hstateful as [Hlist Hcreate].
  destruct (Hcreate (remote w) (creation_request self workflow) workflow
              name eq_refl eq_refl Hkeyed)
    as (r & s' & record & Hserve & Hst & Hshape & Hrecords & Hrecord).
  destruct Hshape as (body & data & id & Hb & Hd & Hid).
  exists id, (advance w s' [creation_request self workflow] []). split.
  { rewrite create_workflow_run, Hserve.
    rewrite (creation_verdict_created r body data id) by assumption.
    reflexivity. }
  assert (Hnamed' : Forall named (records s')).
  { rewrite Hrecords. apply Forall_app. split; [assumption|].
    constructor; [|constructor]. exists (JStr name). assumption. }
  split.
  - rewrite (workflow_exists_stateful records) by assumption.
    simpl. rewrite Hrecords, (listed_names_snoc _ _ name) by assumption.
    f_equal. apply bool_decide_eq_true_2, elem_of_app. right. left.
  - intros other Hne.
    rewrite !(workflow_exists_stateful records) by assumption.
    simpl. rewrite Hrecords, (listed_names_snoc _ _ name) by assumption.
    f_equal. apply bool_decide_ext.
    rewrite elem_of_app, list_elem_of_singleton. tauto.
Qed.

(** *** Beyond the contract: what [init] never resolves to *)

Lemma content_type_only k v :
  (<["Content-Type" := "application/json"]> ∅ : gmap string string) !! k
    = Some v → k = "Content-Type".
Proof.
  intros Hk. destruct (decide (k = "Content-Type")) as [|Hne]; [assumption|].
  rewrite lookup_insert_ne, lookup_empty in Hk by done. discriminate.
Qed.

Lemma basic_auth_resolved (env : gmap string string) user password :
  (if Py.truthy_str (getenv env "N8N_BASIC_AUTH_USER" "")
      && Py.truthy_str (getenv env "N8N_BASIC_AUTH_PASSWORD" "")
   then Some (getenv env "N8N_BASIC_AUTH_USER" "",
              getenv env "N8N_BASIC_AUTH_PASSWORD" "")
   else None) = Some (user, password) →
  user ≠ "" ∧ password ≠ ""
  ∧ env !! "N8N_BASIC_AUTH_USER" = Some user
  ∧ env !! "N8N_BASIC_AUTH_PASSWORD" = Some password.
Proof.
  unfold getenv, Py.truthy_str.
  destruct (env !! "N8N_BASIC_AUTH_USER") as [u|];
    destruct (env !! "N8N_BASIC_AUTH_PASSWORD") as [p|]; simpl;
    try discriminate;
    try (destruct (String.eqb_spec u ""); simpl; discriminate).
  destruct (String.eqb_spec u ""); [discriminate|].
  destruct (String.eqb_spec p ""); [discriminate|].
  simpl. intros [= <- <-]. auto.
Qed.

(** X3: whatever the environment, the client always carries the JSON
    content type and no header besides it and the API key; it never
    carries an API key together with basic-auth credentials; an API key
    it carries is the non-empty value of N8N_API_KEY; and basic-auth
    credentials it carries are the non-empty values of the two basic-auth
    variables, carried only when N8N_API_KEY is unset or empty. *)
Theorem init_credentials env :
  headers (init env) !! "Content-Type" = Some "application/json"
  ∧ (∀ k v, headers (init env) !! k = Some v →
     k = "Content-Type" ∨ k = "X-N8N-API-KEY")
  ∧ (is_Some (headers (init env) !! "X-N8N-API-KEY") →
     auth (init env) = None)
  ∧ (∀ key, headers (init env) !! "X-N8N-API-KEY" = Some key →
     key ≠ "" ∧ env !! "N8N_API_KEY" = Some key)
  ∧ (∀ user password, auth (init env) = Some (user, password) →
     user ≠ "" ∧ password ≠ ""
     ∧ env !! "N8N_BASIC_AUTH_USER" = Some user
     ∧ env !! "N8N_BASIC_AUTH_PASSWORD" = Some password
     ∧ no_api_key env).
Proof.
  assert (Hcases :
    (∃ key, env !! "N8N_API_KEY" = Some key ∧ key ≠ ""
            ∧ headers (init env)
              = <["X-N8N-API-KEY" := key]>
                  (<["Content-Type" := "application/json"]> ∅)
            ∧ auth (init env) = None)
    ∨ (no_api_key env
       ∧ headers (init env) = <["Content-Type" := "application/json"]> ∅
       ∧ auth (init env)
         = if Py.truthy_str (getenv env "N8N_BASIC_AUTH_USER" "")
              && Py.truthy_str (getenv env "N8N_BASIC_AUTH_PASSWORD" "")
           then Some (getenv env "N8N_BASIC_AUTH_USER" "",
                      getenv env "N8N_BASIC_AUTH_PASSWORD" "")
           else None)).
  { unfold init, getenv_truthy, no_api_key, Py.truthy_str.
    destruct (env !! "N8N_API_KEY") as [key|] eqn:Hkey;
      [destruct (String.eqb_spec key "") as [->|Hne]|]; simpl.
    - right. auto.
    - left. exists key. unfold getenv. rewrite Hkey. auto.
    - right. auto. }
  destruct Hcases as [(key & Hkey & Hne & -> & ->)|(Hno & -> & ->)].
  - split; [reflexivity|]. split.
    { intros k v Hk. destruct (decide (k = "X-N8N-API-KEY")); [auto|].
      rewrite lookup_insert_ne in Hk by done.
      left. eapply content_type_only, Hk. }
    split; [reflexivity|]. split; [|discriminate].
    intros key' Hk. rewrite lookup_insert_eq in Hk.
    injection Hk as <-. auto.
  - split; [reflexivity|]. split.
    { intros k v Hk. left. eapply content_type_only, Hk. }
    split; [intros [v Hv]; apply content_type_only in Hv; discriminate|].
    split; [intros key Hv; apply content_type_only in Hv; discriminate|].
    intros user password Hauth.
    apply basic_auth_resolved in Hauth as (? & ? & ? & ?). auto 6.
Qed.

(** *** Beyond the contract: the shape of a run's trace *)

Lemma check_then_create_requests self name workflow w :
  ∃ rqs, sent (snd (check_then_create self name workflow w)) = sent w ++ rqs
         ∧ flow_requests self (name, workflow) rqs.
Proof.
  rewrite check_then_create_run. unfold flow_requests.
  destruct (serve (remote w) (listing_request self)) as [[r1|] s1];
    [|eexists; split; [reflexivity|left; reflexivity]].
  destruct (listing_verdict r1 name) as [[|]|];
    try (eexists; split; [reflexivity|left; reflexivity]).
  cbv zeta.
  destruct (serve s1 (creation_request self workflow)) as [[r2|] s2];
    [|eexists; split; [reflexivity|right; reflexivity]].
  destruct (creation_verdict r2) as [[id|e] lines];
    eexists; (split; [reflexivity|right; reflexivity]).
Qed.

Lemma provision_then_trace self ts :
  ∀ w, ∃ ts' traces,
    ts' `prefix_of` ts
    ∧ Forall2 (flow_requests self) ts' traces
    ∧ sent (snd (provision_then self ts footer w)) = sent w ++ concat traces
    ∧ (fst (provision_then self ts footer w) = Ok tt → ts' = ts).
Proof.
  induction ts as [|[name workflow] ts IH]; intros w.
  - exists [], []. cbn [provision_then foldr]. rewrite footer_run.
    repeat split; [apply prefix_nil|constructor].
  - cbn [provision_then foldr fst snd]. fold (provision_then self ts footer).
    destruct (check_then_create_requests self name workflow w)
      as (rqs & Hsent & Hflow).
    unfold bind at 1 2.
    destruct (check_then_create self name workflow w) as [[[]|e] w1].
    + destruct (IH w1) as (ts' & traces & Hpre & Hall & Hsent' & Hok).
      exists ((name, workflow) :: ts'), (rqs :: traces).
      split; [apply prefix_cons, Hpre|]. split; [constructor; assumption|].
      split.
      * rewrite Hsent'. simpl in Hsent. rewrite Hsent, <- app_assoc.
        reflexivity.
      * intros H. f_equal. apply Hok, H.
    + exists [(name, workflow)], [rqs].
      split; [apply prefix_cons, prefix_nil|].
      split; [constructor; [assumption|constructor]|].
      split; [simpl in *; rewrite app_nil_r; exact Hsent|discriminate].
Qed.

Lemma posted_flow_requests self t rqs :
  flow_requests self t rqs → posted rqs `sublist_of` [snd t].
Proof.
  intros [-> | ->]; simpl; [apply sublist_nil_l|reflexivity].
Qed.

Lemma posted_traces self ts traces :
  Forall2 (flow_requests self) ts traces →
  posted (concat traces) `sublist_of` (snd <$> ts)
  ∧ (length (concat traces) ≤ 2 * length ts)%nat.
Proof.
  induction 1 as [|t rqs ts traces Hflow _ [IHp IHl]].
  - split; [reflexivity|simpl; lia].
  - split.
    + simpl. rewrite posted_app.
      change (posted rqs ++ posted (concat traces)
              `sublist_of` [snd t] ++ (snd <$> ts)).
      apply sublist_app; [|exact IHp].
      eapply posted_flow_requests, Hflow.
    + simpl. rewrite length_app.
      destruct Hflow as [-> | ->]; simpl; lia.
Qed.

(** X4: whatever the service answers, a run adds to the trace the
    requests of the flows of the first templates, in the fixed order,
    each flow its listing request alone or followed by its creation
    request, and of all four templates when it returns.  So a run issues
    at most eight requests, never a creation request that does not follow
    its listing request, and submits nothing but the hard-coded
    definitions, each at most once and in order. *)
Theorem setup_all_workflows_trace self w :
  ∃ ts traces,
    ts `prefix_of` templates
    ∧ Forall2 (flow_requests self) ts traces
    ∧ sent (snd (setup_all_workflows self w)) = sent w ++ concat traces
    ∧ (fst (setup_all_workflows self w) = Ok tt → ts = templates)
    ∧ (length (concat traces) ≤ 8)%nat
    ∧ posted (concat traces) `sublist_of` (snd <$> templates).
Proof.
  rewrite setup_all_workflows_provision.
  destruct (provision_then_trace self templates
              (advance w (remote w) [] header_lines))
    as (ts & traces & Hpre & Hall & Hsent & Hok).
  exists ts, traces. split; [assumption|]. split; [assumption|].
  split; [rewrite Hsent; simpl; rewrite app_nil_r; reflexivity|].
  split; [assumption|].
  destruct (posted_traces self ts traces Hall) as [Hposted Hlen].
  split.
  - apply prefix_length in Hpre. simpl in Hpre. lia.
  - etrans; [exact Hposted|].
    destruct Hpre as [rest ->]. rewrite fmap_app.
    apply sublist_inserts_r. reflexivity.
Qed.

(** *** Beyond the contract: a listing call that is down *)

Lemma check_then_create_down Inv self name workflow w :
  listing_down Inv → Inv (remote w) →
  ∃ w', check_then_create self name workflow w = (Ok tt, w')
        ∧ Inv (remote w')
        ∧ sent w' = sent w ++ [listing_request self;
                               creation_request self workflow].
Proof.
  intros Hdown Hinv. rewrite check_then_create_run.
  destruct (Hdown (remote w) (listing_request self) Hinv)
    as (r1 & s1 & -> & Hinv1 & Hst1). simpl in Hst1.
  rewrite listing_verdict_failed by assumption. cbv zeta.
  destruct (Hdown s1 (creation_request self workflow) Hinv1)
    as (r2 & s2 & -> & Hinv2 & Hshape2). simpl in Hshape2.
  destruct (creation_verdict_shaped r2 Hshape2) as [id Hid].
  destruct (creation_verdict r2) as [res lines]. simpl in Hid. subst res.
  eexists. split; [reflexivity|]. split; [assumption|reflexivity].
Qed.

Lemma provision_then_down Inv self k ts :
  listing_down Inv →
  ∀ w, Inv (remote w) →
       ∃ w', provision_then self ts k w = k w'
             ∧ Inv (remote w')
             ∧ sent w'
               = sent w
                 ++ concat ((λ t, [listing_request self;
                                   creation_request self (snd t)]) <$> ts).
Proof.
  intros Hdown. induction ts as [|[name workflow] ts IH]; intros w Hinv.
  - exists w. simpl. rewrite app_nil_r. done.
  - destruct (check_then_create_down Inv self name workflow w Hdown Hinv)
      as (w1 & Hrun1 & Hinv1 & Hsent1).
    destruct (IH w1 Hinv1) as (w' & Hrun & Hinv' & Hsent).
    exists w'. cbn [provision_then foldr fst snd].
    unfold bind at 1. rewrite Hrun1. fold (provision_then self ts k).
    split; [exact Hrun|]. split; [assumption|].
    rewrite Hsent, Hsent1, fmap_cons, <- app_assoc. reflexivity.
Qed.

(** X5: the existence check fails open all the way.  When the service
    answers every listing call with a status other than 200, a run still
    returns, and it submits all four definitions, each after its listing
    call, whatever the service already holds. *)
Theorem setup_all_workflows_fails_open Inv self w :
  listing_down Inv → Inv (remote w) →
  ∃ w', setup_all_workflows self w = (Ok tt, w')
        ∧ Inv (remote w')
        ∧ sent w'
          = sent w
            ++ concat ((λ t, [listing_request self;
                              creation_request self (snd t)])
                       <$> templates).
Proof.
  intros Hdown Hinv. rewrite setup_all_workflows_provision.
  destruct (provision_then_down Inv self footer templates Hdown
              (advance w (remote w) [] header_lines) Hinv)
    as (w' & -> & Hinv' & Hsent).
  rewrite footer_run. eexists. split; [reflexivity|].
  split; [assumption|].
  rewrite sent_advance, app_nil_r, Hsent, sent_advance, app_nil_r.
  reflexivity.
Qed.

(** *** Beyond the contract: what a run prints *)

Lemma flow_step_output self name workflow w w' :
  flow_step self name workflow w w' →
  ∃ out, stdout w' = stdout w ++ out
         ∧ flow_output py_repr (name, workflow) out.
Proof.
  intros [r1 s1 _ _ ->
         |r1 r2 s1 s2 id _ _ _ _ _ ->
         |r1 r2 s1 s2 id _ _ _ _ _ ->
         |r1 r2 s1 s2 _ _ _ _ ->]; eexists; (split; [reflexivity|]).
  - right. left. reflexivity.
  - right. right. left. eexists. reflexivity.
  - left. reflexivity.
  - right. right. right. eexists. reflexivity.
Qed.

Lemma flow_fault_output self name workflow w e w' :
  flow_fault self name workflow w e w' → stdout w' = stdout w.
Proof.
  intros [s1 _ _ ->|r1 s1 _ _ ->|r1 s1 s2 _ _ _ _ ->|r1 r2 s1 s2 _ _ _ _ ->];
    simpl; apply app_nil_r.
Qed.

Lemma flows_output self ts :
  ∀ w w', flows self ts w w' →
          ∃ outs, Forall2 (flow_output py_repr) ts outs
                  ∧ stdout w' = stdout w ++ concat outs.
Proof.
  induction ts as [|[name workflow] ts IH]; intros w w'.
  - intros ->. exists []. split; [constructor|].
    simpl. rewrite app_nil_r. reflexivity.
  - intros (w1 & Hstep & Hrest).
    destruct (flow_step_output _ _ _ _ _ Hstep) as (out & Hout & Hshape).
    destruct (IH w1 w' Hrest) as (outs & Houts & Hstdout).
    exists (out :: outs). split; [constructor; assumption|].
    rewrite Hstdout, Hout, <- app_assoc. reflexivity.
Qed.


(** X6: whatever the service answers, a run first makes its two header
    print calls; then each flow that completes makes at most one print
    call, with its status text ("already exists", "Created ... with ID"
    or "Failed to create workflow: ..."); a flow that ends on an
    exception prints nothing.  A run that returns has made the seven
    closing print calls last, after the four flows; a run that an
    exception ends has made none of them, and at most three flows have
    completed. *)
Theorem setup_all_workflows_output self w :
  ∃ done outs w1,
    flows self done (advance w (remote w) [] header_lines) w1
    ∧ Forall2 (flow_output py_repr) done outs
    ∧ stdout w1 = stdout w ++ header_lines ++ concat outs
    ∧ ((done = templates
        ∧ setup_all_workflows self w
          = (Ok tt, advance w1 (remote w1) [] footer_lines)
        ∧ stdout (snd (setup_all_workflows self w))
          = stdout w ++ header_lines ++ concat outs ++ footer_lines)
       ∨ (∃ e t rest w2,
            templates = done ++ t :: rest
            ∧ flow_fault self (fst t) (snd t) w1 e w2
            ∧ setup_all_workflows self w = (Raise e, w2)
            ∧ stdout w2 = stdout w1
            ∧ (length done ≤ 3)%nat
            ∧ stdout (snd (setup_all_workflows self w))
              = stdout w ++ header_lines ++ concat outs)).
Proof.
  rewrite setup_all_workflows_provision.
  pose proof (provision_then_flows self footer templates
                (advance w (remote w) [] header_lines)) as Hflows.
  pose proof (provision_then_faults self footer templates
                (advance w (remote w) [] header_lines)) as Hfaults.
  destruct (provision_then self templates footer
              (advance w (remote w) [] header_lines)) as [[[]|e] w'].
  - destruct (proj1 (Hflows w') eq_refl) as (w4 & Hdone & Hfooter).
    rewrite footer_run in Hfooter. injection Hfooter as <-.
    destruct (flows_output _ _ _ _ Hdone) as (outs & Houts & Hstdout).
    rewrite stdout_advance, <- app_assoc in Hstdout.
    exists templates, outs, w4. split; [assumption|].
    split; [assumption|]. split; [assumption|]. left.
    split; [reflexivity|]. split; [reflexivity|].
    cbn [snd]. rewrite stdout_advance, Hstdout, <- !app_assoc. reflexivity.
  - destruct (proj1 (Hfaults e w') eq_refl)
      as [(done & t & rest & w1 & Hts & Hdone & Hfault)|(w1 & _ & Hfooter)];
      [|rewrite footer_run in Hfooter; discriminate].
    destruct (flows_output _ _ _ _ Hdone) as (outs & Houts & Hstdout).
    rewrite stdout_advance, <- app_assoc in Hstdout.
    exists done, outs, w1. split; [assumption|].
    split; [assumption|]. split; [assumption|]. right.
    exists e, t, rest, w'. split; [assumption|]. split; [assumption|].
    split; [reflexivity|].
    split; [exact (flow_fault_output _ _ _ _ _ _ Hfault)|]. split.
    + apply (f_equal length) in Hts. rewrite length_app in Hts.
      simpl in Hts. lia.
    + cbn [snd]. rewrite (flow_fault_output _ _ _ _ _ _ Hfault). assumption.
Qed.

(** *** Beyond the contract: runs that find everything in place *)

Lemma setup_all_workflows_listed records self w :
  stateful records → Forall named (records (remote w)) →
  Forall (λ t, fst t ∈ listed_names (records (remote w))) templates →
  setup_all_workflows self w
  = (Ok tt,
     advance w (remote w) (replicate 4 (listing_request self))
       (header_lines ++ ((λ t, exists_line (fst t)) <$> templates)
        ++ footer_lines)).
Proof.
  intros Hstateful Hnamed Hlisted. rewrite setup_all_workflows_provision.
  rewrite (provision_then_listed records self footer templates Hstateful)
    by (try apply templates_keyed; assumption).
  rewrite footer_run, !advance_advance, !remote_advance, app_nil_r.
  reflexivity.
Qed.

(** X7: against a stateful service that lists all four names, any
    number of runs in a row is read-only: every run returns, the service
    stays in the state it was in, and the runs send four listing requests
    each and no creation request. *)
Theorem runs_when_listed records self n :
  stateful records →
  ∀ w, Forall named (records (remote w)) →
       Forall (λ t, fst t ∈ listed_names (records (remote w))) templates →
       ∃ w', runs n self w = (Ok tt, w')
             ∧ remote w' = remote w
             ∧ sent w'
               = sent w ++ replicate (n * 4) (listing_request self).
Proof.
  intros Hstateful. induction n as [|n IH]; intros w Hnamed Hlisted.
  - exists w. simpl. rewrite app_nil_r. done.
  - cbn [runs]. unfold bind.
    rewrite (setup_all_workflows_listed records) by assumption.
    destruct (IH (advance w (remote w) (replicate 4 (listing_request self))
                    (header_lines
                     ++ ((λ t, exists_line (fst t)) <$> templates)
                     ++ footer_lines)) Hnamed Hlisted)
      as (w' & -> & Hremote & Hsent).
    exists w'. split; [reflexivity|]. split; [exact Hremote|].
    rewrite Hsent, sent_advance, <- app_assoc.
    change (S n * 4)%nat with (4 + n * 4)%nat. rewrite replicate_add.
    reflexivity.
Qed.

(** *** Beyond the contract: the closing line and the exit code *)








End Client.

(** C10: in each of the four hard-coded definitions, every key of the
    connections map and every downstream [node] target is the [name] of a
    node of the definition's node list. *)
Theorem templates_consistent :
  Forall (λ t, Layout.consistent (snd t)) templates.
Proof.
  repeat constructor; simpl;
    (eexists _, _, _; split; [reflexivity|];
     split; [reflexivity|]; split; [reflexivity|];
     split; repeat constructor).
Qed.

(** ** The properties on concrete runs *)

(** The name is on the second record of a 200 listing, after a record
    with another name: found.  With the status 203: not looked for. *)
Lemma workflow_exists_spec_witness :
  fst (workflow_exists Script.serve Scenario.client "SHAAD_Web_Search"
         (Script.start
            [Answered (Mock.listing [Scenario.home_control_record;
                                     Scenario.web_search_record])]))
  = Ok true
  ∧ workflow_exists Script.serve Scenario.client "SHAAD_Web_Search"
      (Script.start [Answered Scenario.listing_203])
    = (Ok false,
       advance (Script.start [Answered Scenario.listing_203]) []
         [listing_request Scenario.client] []).
Proof.
  split.
  - apply (proj2 (proj1 (proj1 (proj2
             (workflow_exists_spec Script.serve Scenario.client
                "SHAAD_Web_Search"
                (Script.start
                   [Answered (Mock.listing [Scenario.home_control_record;
                                            Scenario.web_search_record])])
                (Mock.listing [Scenario.home_control_record;
                               Scenario.web_search_record]) [] eq_refl))
             (JObj [("data", JArr [Scenario.home_control_record;
                                   Scenario.web_search_record])])
             [Scenario.home_control_record; Scenario.web_search_record]
             eq_refl eq_refl eq_refl))).
    exists [Scenario.home_control_record], Scenario.web_search_record, [].
    split; [reflexivity|]. split; [|reflexivity].
    constructor; [|constructor].
    eexists. split; [reflexivity|discriminate].
  - apply (proj1 (proj2 (proj2
             (workflow_exists_spec Script.serve Scenario.client
                "SHAAD_Web_Search"
                (Script.start [Answered Scenario.listing_203])
                Scenario.listing_203 [] eq_refl)))).
    discriminate.
Defined.

(** C2 as stated fails, twice.  This listing has a success status and a
    record with the name in its [data] array, and [workflow_exists]
    returns false; and on a 200 listing with the name in its array, a
    record without a name before it makes the call raise. *)
Lemma listed_name_not_found :
  is_success (status_code Scenario.listing_203) = true
  ∧ data_member Scenario.listing_203
    = Some (JArr [Scenario.web_search_record])
  ∧ Py.getitem Scenario.web_search_record "name"
    = Ok (JStr "SHAAD_Web_Search")
  ∧ fst (workflow_exists Script.serve Scenario.client "SHAAD_Web_Search"
           (Script.start [Answered Scenario.listing_203]))
    = Ok false
  ∧ fst (workflow_exists Script.serve Scenario.client "SHAAD_Web_Search"
           (Script.start
              [Answered (Mock.listing [Scenario.nameless_record;
                                       Scenario.web_search_record])]))
    = Raise (KeyError "name").
Proof. repeat split. Qed.

(** A creation answered 201 with the id "42", and one answered 500. *)
Lemma create_workflow_spec_witness :
  create_workflow Script.serve Scenario.client
    (Templates.web_search "SHAAD_Web_Search")
    (Script.start [Answered (Mock.created (JStr "42"))])
  = (Ok (JStr "42"),
     advance (Script.start [Answered (Mock.created (JStr "42"))]) []
       [creation_request Scenario.client
          (Templates.web_search "SHAAD_Web_Search")] [])
  ∧ create_workflow Script.serve Scenario.client
      (Templates.web_search "SHAAD_Web_Search")
      (Script.start [Answered Scenario.server_error])
    = (Ok JNull,
       advance (Script.start [Answered Scenario.server_error]) []
         [creation_request Scenario.client
            (Templates.web_search "SHAAD_Web_Search")]
         ["Failed to create workflow: Internal Server Error"]).
Proof.
  split.
  - exact (proj1 (create_workflow_spec Script.serve Scenario.client
                    (Templates.web_search "SHAAD_Web_Search")
                    (Script.start
                       [Answered (Mock.created (JStr "42"))])
                    (Mock.created (JStr "42")) [] eq_refl)
             (JObj [("data", JObj [("id", JStr "42")])])
             (JObj [("id", JStr "42")]) (JStr "42")
             eq_refl eq_refl eq_refl eq_refl).
  - apply (proj2 (create_workflow_spec Script.serve Scenario.client
                    (Templates.web_search "SHAAD_Web_Search")
                    (Script.start [Answered Scenario.server_error])
                    Scenario.server_error [] eq_refl)).
    discriminate.
Defined.

(** A 201 creation without a body raises; a 200 listing with an empty
    object under [data] returns false. *)
Lemma success_bodies_witness :
  raises (fst (create_workflow Script.serve Scenario.client
                 (Templates.web_search "SHAAD_Web_Search")
                 (Script.start [Answered Scenario.created_without_body])))
  ∧ fst (workflow_exists Script.serve Scenario.client "SHAAD_Web_Search"
           (Script.start [Answered Scenario.empty_object_listing]))
    = Ok false.
Proof.
  split.
  - apply (proj1 (proj1 (success_bodies Script.serve Scenario.client
                           "SHAAD_Web_Search"
                           (Templates.web_search "SHAAD_Web_Search")
                           (Script.start
                              [Answered Scenario.created_without_body]))
                    Scenario.created_without_body [] eq_refl eq_refl)).
    intros (body & data & id & Hbody & _). discriminate Hbody.
  - apply (proj1 (proj2 (proj2
             (proj2 (success_bodies Script.serve Scenario.client
                       "SHAAD_Web_Search"
                       (Templates.web_search "SHAAD_Web_Search")
                       (Script.start
                          [Answered Scenario.empty_object_listing]))
                Scenario.empty_object_listing [] eq_refl eq_refl)))
             (JObj []) eq_refl).
    left. reflexivity.
Defined.

(** C8 as stated fails: this 200 listing has no [data] array, and
    [workflow_exists] returns false on it without raising. *)
Lemma empty_object_listing_returns_false :
  status_code Scenario.empty_object_listing = 200
  ∧ (∀ ws, data_member Scenario.empty_object_listing ≠ Some (JArr ws))
  ∧ ¬ listing_shape Scenario.empty_object_listing
  ∧ fst (workflow_exists Script.serve Scenario.client "SHAAD_Web_Search"
           (Script.start [Answered Scenario.empty_object_listing]))
    = Ok false.
Proof.
  split; [reflexivity|]. split; [discriminate|]. split; [|reflexivity].
  intros (body & ws & [= <-] & [=] & _).
Qed.

(** With a non-empty API key every request of a run carries it and no
    basic-auth credentials, though both basic-auth variables are set. *)
Lemma authentication_resolved_witness :
  ∃ rest,
    sent (snd (setup_all_workflows Mock.serve Scenario.repr
                 (init Scenario.env_api_key) (Mock.start [])))
    = [] ++ listing_request (init Scenario.env_api_key) :: rest
    ∧ Forall (λ rq, req_headers rq !! "X-N8N-API-KEY" = Some "n8n_api_0123"
                    ∧ req_auth rq = None)
        (listing_request (init Scenario.env_api_key) :: rest).
Proof.
  destruct (authentication_resolved Mock.serve Scenario.repr
              Scenario.env_api_key (Mock.start []))
    as (rest & Hsent & _ & Hkey & _).
  exists rest. split; [exact Hsent|].
  apply Hkey; [reflexivity|discriminate].
Defined.

(** C4 as stated fails: N8N_API_KEY is set, to the empty string, and all
    eight requests of the run go out without the API-key header and with
    the basic-auth credentials. *)
Lemma empty_api_key_sends_basic_auth :
  Scenario.env_empty_key !! "N8N_API_KEY" = Some ""
  ∧ length (sent (snd (main Mock.serve Scenario.repr Scenario.env_empty_key
                         (Mock.start [])))) = 8%nat
  ∧ Forall (λ rq, req_headers rq !! "X-N8N-API-KEY" = None
                  ∧ req_auth rq = Some ("shaad", "secret"))
      (sent (snd (main Mock.serve Scenario.repr Scenario.env_empty_key
                    (Mock.start [])))).
Proof.
  split; [reflexivity|]. split; [reflexivity|].
  vm_compute. repeat constructor.
Qed.

(** The mixed script answers every request its run makes. *)
Lemma mixed_script_served :
  served Script.serve Scenario.client templates Scenario.mixed_script.
Proof.
  unfold templates, Scenario.mixed_script. cbn [served fst snd].
  (* notification: listing 500, creation 500 *)
  eexists _, _. split; [reflexivity|]. split; [discriminate|].
  split; [intros [Hst _]; discriminate Hst|]. intros _.
  eexists _, _. split; [reflexivity|]. split; [discriminate|].
  (* web-search: listed *)
  eexists _, _. split; [reflexivity|].
  split; [intros _; eexists _, _; split; [reflexivity|];
          split; [reflexivity|]; repeat constructor; eexists; reflexivity|].
  split; [intros _|
          intros Hnot; exfalso; apply Hnot, listing_verdict_true;
          reflexivity].
  (* home-control: not listed, created *)
  eexists _, _. split; [reflexivity|].
  split; [intros _; eexists _, _; split; [reflexivity|];
          split; [reflexivity|]; repeat constructor; eexists; reflexivity|].
  split; [intros Hl; apply listing_verdict_true in Hl; discriminate Hl|].
  intros _. eexists _, _. split; [reflexivity|].
  split; [intros _; eexists _, _, _; repeat split; reflexivity|].
  (* schedule-task: listing 500, created *)
  eexists _, _. split; [reflexivity|]. split; [discriminate|].
  split; [intros [Hst _]; discriminate Hst|]. intros _.
  eexists _, _. split; [reflexivity|].
  split; [intros _; eexists _, _, _; repeat split; reflexivity|].
  exact I.
Qed.

(** Two 500 answers for the first template, a listed name, a creation
    and a failed listing after them: the run returns. *)
Lemma setup_all_workflows_flows_witness :
  ∃ w', setup_all_workflows Script.serve Scenario.repr Scenario.client
          (Script.start Scenario.mixed_script)
        = (Ok tt, w').
Proof.
  apply (proj1 (proj2 (setup_all_workflows_flows Script.serve
                         Scenario.repr Scenario.client
                         (Script.start Scenario.mixed_script)))).
  exact mixed_script_served.
Defined.

(** The run against the mixed script, computed: seven requests, and one
    status text for each of the four templates. *)
Example run_against_the_mixed_script :
  let w' := snd (setup_all_workflows Script.serve Scenario.repr
                   Scenario.client (Script.start Scenario.mixed_script)) in
  map req_method (sent w') = [GET; POST; GET; GET; POST; GET; POST]
  ∧ stdout w'
    = header_lines
      ++ [failed_line "Internal Server Error";
          exists_line "SHAAD_Web_Search";
          created_line Scenario.repr "SHAAD_Home_Control" (JStr "3");
          created_line Scenario.repr "SHAAD_Schedule_Task" (JStr "4")]
      ++ footer_lines.
Proof. vm_compute. split; reflexivity. Qed.

(** C5 as stated fails: all four definitions are submitted, the first
    creation is answered 201 with the id 0, and the run prints a status
    line for three templates only. *)
Lemma falsy_id_prints_no_status_line :
  fst (setup_all_workflows Script.serve Scenario.repr Scenario.client
         (Script.start Scenario.zero_id_script)) = Ok tt
  ∧ posted
      (sent (snd (setup_all_workflows Script.serve Scenario.repr
                    Scenario.client (Script.start Scenario.zero_id_script))))
    = snd <$> templates
  ∧ stdout (snd (setup_all_workflows Script.serve Scenario.repr
                   Scenario.client (Script.start Scenario.zero_id_script)))
    = header_lines
      ++ [created_line Scenario.repr "SHAAD_Web_Search" (JStr "2");
          created_line Scenario.repr "SHAAD_Home_Control" (JStr "3");
          created_line Scenario.repr "SHAAD_Schedule_Task" (JStr "4")]
      ++ footer_lines.
Proof. repeat split; vm_compute; reflexivity. Qed.

(** C6 as stated fails: when the service cannot be reached, and when it
    answers the listing with a 200 that is not JSON, the entry point ends
    on an uncaught exception with exit code 1. *)
Lemma uncaught_fault_exits_nonzero :
  fst (main Script.serve Scenario.repr ∅ (Script.start []))
  = {| exit_code := 1; uncaught := Some ConnectionError |}
  ∧ fst (main Script.serve Scenario.repr ∅
           (Script.start [Answered Scenario.html_page]))
    = {| exit_code := 1; uncaught := Some JSONDecodeError |}.
Proof. split; vm_compute; reflexivity. Qed.

Lemma assoc_name_stored fields :
  Py.assoc "name" (filter (λ kv, fst kv ≠ "id") fields)
  = Py.assoc "name" fields.
Proof.
  induction fields as [|[k v] fields IH]; [reflexivity|].
  rewrite filter_cons. simpl. destruct (decide (k ≠ "id")) as [Hne|Heq].
  - simpl. rewrite IH. reflexivity.
  - destruct (decide (k = "id")) as [->|]; [|contradiction].
    simpl. exact IH.
Qed.

(** The mock is a stateful service: its state is its list of records. *)
Lemma mock_stateful : stateful Mock.serve (λ records, records).
Proof.
  split.
  - intros records rq Hget. unfold Mock.serve. rewrite Hget.
    eexists _, _. repeat split; reflexivity.
  - intros records rq workflow name Hpost Hjson Hname.
    unfold Mock.serve. rewrite Hpost, Hjson.
    destruct workflow as [| | | | |fields]; try discriminate.
    simpl in Hname.
    destruct (Py.assoc "name" fields) as [v|] eqn:Hassoc; [|discriminate].
    injection Hname as ->.
    eexists _, _, _. split; [reflexivity|]. split; [reflexivity|].
    split; [eexists _, _, _; repeat split; reflexivity|].
    split; [reflexivity|].
    unfold Mock.stored. simpl. rewrite assoc_name_stored, Hassoc.
    reflexivity.
Qed.

(** The mock answers every request the flows of templates that carry
    their name make, from every state whose records have a name. *)
Lemma mock_served self ts :
  Forall keyed ts →
  ∀ records, Forall named records → served Mock.serve self ts records.
Proof.
  induction 1 as [|t ts Hkeyed _ IH]; intros records Hnamed; [exact I|].
  cbn [served]. exists (Mock.listing records), records.
  split; [reflexivity|]. split.
  { intros _. eexists _, _. split; [reflexivity|]. split; [reflexivity|].
    assumption. }
  split; [intros _; apply IH; assumption|]. intros _.
  unfold keyed in Hkeyed.
  destruct (snd t) as [| | | | |fields] eqn:Hdef; try discriminate.
  simpl in Hkeyed.
  destruct (Py.assoc "name" fields) as [v|] eqn:Hassoc; [|discriminate].
  exists (Mock.created (Mock.next_id records)),
         (records ++ [Mock.stored records fields]).
  split; [reflexivity|]. split.
  { intros _. eexists _, _, _. repeat split; reflexivity. }
  apply IH. apply Forall_app. split; [assumption|].
  constructor; [|constructor]. exists v.
  unfold Mock.stored. simpl. rewrite assoc_name_stored, Hassoc. reflexivity.
Qed.

(** Against the mock the entry point exits with 0; against a service
    that is gone after the first flow, with 1 on the connection error of
    the second listing request. *)
Lemma main_exit_code_witness :
  fst (main Mock.serve Scenario.repr ∅
         (Mock.start [Scenario.web_search_record]))
  = {| exit_code := 0; uncaught := None |}
  ∧ fst (main Script.serve Scenario.repr ∅
           (Script.start Scenario.cut_script))
    = {| exit_code := 1; uncaught := Some ConnectionError |}.
Proof.
  split.
  - apply (proj1 (proj2 (proj2 (proj2
             (main_exit_code Mock.serve Scenario.repr ∅
                (Mock.start [Scenario.web_search_record])))))).
    apply mock_served; [apply templates_keyed|].
    repeat constructor. eexists. reflexivity.
  - assert (Hdone :
      flows Script.serve Scenario.repr (init ∅)
        [("SHAAD_Send_Notification",
          Templates.send_notification "SHAAD_Send_Notification")]
        (advance (Script.start Scenario.cut_script)
           (remote (Script.start Scenario.cut_script)) [] header_lines)
        (advance
           (advance (Script.start Scenario.cut_script)
              Scenario.cut_script [] header_lines)
           []
           [listing_request (init ∅);
            creation_request (init ∅)
              (Templates.send_notification "SHAAD_Send_Notification")]
           [failed_line (text Scenario.server_error)])).
    { eexists. split; [|reflexivity].
      eapply step_failed;
        [reflexivity|left; discriminate|reflexivity|discriminate
        |reflexivity]. }
    apply (proj1 (proj2 (proj2 (proj2 (proj2
             (main_exit_code Script.serve Scenario.repr ∅
                (Script.start Scenario.cut_script)))))
             [("SHAAD_Send_Notification",
               Templates.send_notification "SHAAD_Send_Notification")]
             ("SHAAD_Web_Search", Templates.web_search "SHAAD_Web_Search")
             (drop 2 templates) _ eq_refl Hdone) [] eq_refl).
Defined.

(** Two runs against the mock that starts with the web-search workflow
    already there. *)
Lemma setup_twice_creates_once_witness :
  ∃ w1 w2 new,
    setup_all_workflows Mock.serve Scenario.repr Scenario.client
      (Mock.start [Scenario.web_search_record]) = (Ok tt, w1)
    ∧ setup_all_workflows Mock.serve Scenario.repr Scenario.client w1
      = (Ok tt, w2)
    ∧ sent w1 = sent (Mock.start [Scenario.web_search_record]) ++ new
    ∧ posted new
      = snd <$> missing (remote (Mock.start [Scenario.web_search_record]))
                  templates
    ∧ listed_names (remote w1)
      = listed_names (remote (Mock.start [Scenario.web_search_record]))
        ++ (fst <$> missing
                      (remote (Mock.start [Scenario.web_search_record]))
                      templates)
    ∧ sent w2 = sent w1 ++ replicate 4 (listing_request Scenario.client)
    ∧ stdout w2
      = stdout w1 ++ header_lines
        ++ ((λ t, exists_line (fst t)) <$> templates) ++ footer_lines
    ∧ remote w2 = remote w1
    ∧ (NoDup (listed_names
                (remote (Mock.start [Scenario.web_search_record])))
       → NoDup (listed_names (remote w2))).
Proof.
  apply (setup_twice_creates_once Mock.serve Scenario.repr
           (λ records, records) Scenario.client
           (Mock.start [Scenario.web_search_record]) mock_stateful).
  repeat constructor. eexists. reflexivity.
Defined.

(** The two runs, computed: the first sends four listing and three
    creation requests, the second four listing requests; at the end the
    four names are listed, each once. *)
Example two_runs_against_the_mock :
  let w1 := snd (setup_all_workflows Mock.serve Scenario.repr
                   Scenario.client
                   (Mock.start [Scenario.web_search_record])) in
  let w2 := snd (setup_all_workflows Mock.serve Scenario.repr
                   Scenario.client w1) in
  map req_method (sent w1)
  = [GET; POST; GET; GET; POST; GET; POST]
  ∧ map req_method (sent w2)
    = [GET; POST; GET; GET; POST; GET; POST; GET; GET; GET; GET]
  ∧ listed_names (remote w2)
    = ["SHAAD_Web_Search"; "SHAAD_Send_Notification";
       "SHAAD_Home_Control"; "SHAAD_Schedule_Task"].
Proof. vm_compute. repeat split. Qed.

(** The comparison of names is exact: a record named in lower case does
    not count. *)
Example workflow_exists_is_case_sensitive :
  fst (workflow_exists Script.serve Scenario.client "SHAAD_Web_Search"
         (Script.start
            [Answered (Mock.listing
                         [JObj [("id", JStr "7");
                                ("name", JStr "shaad_web_search")]])]))
  = Ok false.
Proof. reflexivity. Qed.

(** ** Beyond the contract: a service that cannot be reached *)

Lemma answered_first_drop n : ∀ script,
  (n ≤ answered_first script)%nat →
  answered_first (drop n script) = (answered_first script - n)%nat.
Proof.
  induction n as [|n IH]; intros script Hn.
  - rewrite drop_0. lia.
  - destruct script as [|[r|] rest]; simpl in *; try lia.
    apply IH. lia.
Qed.

Lemma any_not_connection (f : json → result bool) ws :
  (∀ w, f w ≠ Raise ConnectionError) →
  Py.any f ws ≠ Raise ConnectionError.
Proof.
  intros Hf. induction ws as [|w ws IH]; simpl; [discriminate|].
  specialize (Hf w). destruct (f w) as [[|]|e]; [discriminate|exact IH|].
  congruence.
Qed.

Lemma getitem_not_connection v k : Py.getitem v k ≠ Raise ConnectionError.
Proof.
  destruct v as [| | | | |fields]; simpl; try discriminate.
  destruct (Py.assoc k fields); discriminate.
Qed.

Lemma listing_verdict_not_connection r name :
  listing_verdict r name ≠ Raise ConnectionError.
Proof.
  unfold listing_verdict, response_json.
  destruct (Z.eqb (status_code r) 200); [|discriminate].
  destruct (body_json r) as [body|]; [|discriminate].
  pose proof (getitem_not_connection body "data") as Hdata.
  destruct (Py.getitem body "data") as [workflows|e]; [|congruence].
  destruct workflows; simpl; try discriminate;
    apply any_not_connection; intros w;
    pose proof (getitem_not_connection w "name") as Hname;
    destruct (Py.getitem w "name"); [discriminate|congruence
                                     |discriminate|congruence
                                     |discriminate|congruence].
Qed.

Lemma creation_verdict_not_connection r :
  fst (creation_verdict r) ≠ Raise ConnectionError.
Proof.
  unfold creation_verdict, response_json.
  destruct (Z.eqb (status_code r) 201); simpl; [|discriminate].
  destruct (body_json r) as [body|]; [|discriminate].
  pose proof (getitem_not_connection body "data") as Hdata.
  destruct (Py.getitem body "data") as [data|e]; [|congruence].
  apply getitem_not_connection.
Qed.

Lemma fail_fast_bind {A B}
    (c : world (list outcome) → result A * world (list outcome))
    (k : A → world (list outcome) → result B * world (list outcome)) :
  fail_fast c → (∀ a, fail_fast (k a)) → fail_fast (bind c k).
Proof.
  intros Hc Hk w. destruct (Hc w) as (rqs & Hsent & Hremote & Hcases).
  unfold bind. destruct (c w) as [[a|e] w1]; simpl in *.
  - destruct Hcases as [[Hlen _]|[_ [=]]].
    destruct (Hk a w1) as (rqs' & Hsent' & Hremote' & Hcases').
    exists (rqs ++ rqs'). rewrite Hsent', Hsent, <- app_assoc.
    split; [reflexivity|]. rewrite Hremote', Hremote, drop_drop, length_app.
    split; [reflexivity|]. rewrite Hremote in Hcases'.
    rewrite answered_first_drop in Hcases' by assumption.
    destruct Hcases' as [[Hlen' Hne]|[Hlen' He]]; [left|right];
      (split; [lia|assumption]).
  - exists rqs. split; [assumption|]. split; [assumption|].
    destruct Hcases as [[Hlen Hne]|[Hlen He]]; [left|right];
      (split; [assumption|]); [intros [= ->]; apply Hne|]; congruence.
Qed.

Lemma fail_fast_quiet {A}
    (c : world (list outcome) → result A * world (list outcome)) :
  (∀ w, remote (snd (c w)) = remote w ∧ sent (snd (c w)) = sent w
        ∧ fst (c w) ≠ Raise ConnectionError) →
  fail_fast c.
Proof.
  intros Hc w. destruct (Hc w) as (Hremote & Hsent & Hne). exists [].
  rewrite app_nil_r, drop_0. split; [assumption|]. split; [assumption|].
  left. split; [simpl; lia|assumption].
Qed.

Lemma fail_fast_check_then_create py_repr self name workflow :
  fail_fast (check_then_create Script.serve py_repr self name workflow).
Proof.
  intros w. rewrite check_then_create_run.
  destruct (remote w) as [|[r1|] s1] eqn:Hscript; simpl.
  - exists [listing_request self]. simpl. auto.
  - pose proof (listing_verdict_not_connection r1 name) as Hlist.
    destruct (listing_verdict r1 name) as [[|]|e].
    + exists [listing_request self]. simpl.
      split; [reflexivity|]. split; [rewrite ?drop_0; reflexivity|].
      left. split; [lia|discriminate].
    + destruct s1 as [|[r2|] s2]; simpl.
      * eexists. simpl. split; [reflexivity|].
        split; [reflexivity|]. right. split; reflexivity.
      * pose proof (creation_verdict_not_connection r2) as Hcreate.
        destruct (creation_verdict r2) as [[id|e] lines]; simpl in *;
          (eexists; split; [reflexivity|];
           split; [simpl; rewrite ?drop_0; reflexivity|];
           left; split; [simpl; lia|]); [discriminate|].
        intros [= ->]. apply Hcreate. reflexivity.
      * eexists. simpl. split; [reflexivity|].
        split; [rewrite ?drop_0; reflexivity|]. right. split; reflexivity.
    + exists [listing_request self]. simpl.
      split; [reflexivity|]. split; [rewrite ?drop_0; reflexivity|].
      left. split; [lia|]. intros [= ->]. apply Hlist. reflexivity.
  - exists [listing_request self]. simpl.
    split; [reflexivity|]. split; [rewrite ?drop_0; reflexivity|].
    right. split; reflexivity.
Qed.

Lemma fail_fast_provision_then py_repr self k ts :
  fail_fast k →
  fail_fast (provision_then Script.serve py_repr self ts k).
Proof.
  intros Hk. induction ts as [|t ts IH]; [exact Hk|].
  cbn [provision_then foldr]. apply fail_fast_bind.
  - apply fail_fast_check_then_create.
  - intros _. exact IH.
Qed.

Lemma fail_fast_setup_all_workflows py_repr self :
  fail_fast (setup_all_workflows Script.serve py_repr self).
Proof.
  intros w. rewrite setup_all_workflows_provision.
  destruct (fail_fast_provision_then py_repr self
              (footer (Remote:=list outcome)) templates)
    with (w := advance w (remote w) [] header_lines)
    as (rqs & Hsent & Hremote & Hcases).
  { apply fail_fast_quiet. intros w0. rewrite footer_run.
    simpl. rewrite app_nil_r. split; [reflexivity|]. split; [reflexivity|].
    discriminate. }
  exists rqs. rewrite Hsent, Hremote, sent_advance, remote_advance, app_nil_r.
  rewrite remote_advance in Hcases. auto.
Qed.

(** X9: a failure to connect ends the run on the spot.  Against a service
    that replays a script of outcomes, a run takes one outcome per
    request and sends nothing after the first request that is not
    answered: no retry and no later flow.  It raises the connection
    error exactly when it has met such a request, which is then the last
    one it sent. *)
Theorem connection_failure_ends_the_run py_repr self script :
  let run := setup_all_workflows Script.serve py_repr self
               (Script.start script) in
  remote (snd run) = drop (length (sent (snd run))) script
  ∧ (length (sent (snd run)) ≤ S (answered_first script))%nat
  ∧ (fst run = Raise ConnectionError
     ↔ length (sent (snd run)) = S (answered_first script)).
Proof.
  intros run. subst run.
  destruct (fail_fast_setup_all_workflows py_repr self (Script.start script))
    as (rqs & Hsent & Hremote & Hcases).
  simpl in Hsent, Hremote, Hcases. rewrite Hsent, Hremote.
  split; [reflexivity|].
  destruct Hcases as [[Hlen Hne]|[Hlen He]].
  - split; [lia|]. split; [congruence|lia].
  - split; [lia|]. split; auto.
Qed.

(** ** The further properties on concrete runs *)

(** The service whose listing call is down is one. *)
Lemma blind_listing_down : listing_down Blind.serve (λ _, True).
Proof.
  intros s rq _. unfold Blind.serve, Mock.serve.
  destruct (req_method rq).
  - eexists _, _. split; [reflexivity|]. split; [exact I|]. discriminate.
  - destruct (req_json rq) as [[| | | | |fields]|];
      (eexists _, _; split; [reflexivity|]; split; [exact I|]);
      try discriminate.
    intros _. eexists _, _, _. repeat split; reflexivity.
Qed.

(** The name is on the second of three records; the third has no name. *)
Lemma workflow_exists_first_decisive_witness :
  fst (workflow_exists Script.serve Scenario.client "SHAAD_Web_Search"
         (Script.start
            [Answered (Mock.listing [Scenario.home_control_record;
                                     Scenario.web_search_record;
                                     Scenario.nameless_record])]))
  = Ok true.
Proof.
  refine (proj1 (workflow_exists_first_decisive Script.serve
                   Scenario.client "SHAAD_Web_Search"
                   (Script.start
                      [Answered
                         (Mock.listing [Scenario.home_control_record;
                                        Scenario.web_search_record;
                                        Scenario.nameless_record])])
                   _ [] _ [Scenario.home_control_record]
                   Scenario.web_search_record [Scenario.nameless_record]
                   eq_refl eq_refl eq_refl eq_refl _) eq_refl).
  constructor; [|constructor].
  eexists. split; [reflexivity|discriminate].
Defined.

(** The web-search definition, submitted to the empty mock. *)
Lemma create_then_exists_witness :
  ∃ id w1,
    create_workflow Mock.serve Scenario.client
      (Templates.web_search "SHAAD_Web_Search") (Mock.start [])
    = (Ok id, w1)
    ∧ fst (workflow_exists Mock.serve Scenario.client "SHAAD_Web_Search" w1)
      = Ok true
    ∧ (∀ other, other ≠ "SHAAD_Web_Search" →
       fst (workflow_exists Mock.serve Scenario.client other w1)
       = fst (workflow_exists Mock.serve Scenario.client other
                (Mock.start []))).
Proof.
  apply (create_then_exists Mock.serve Scenario.repr (λ records, records)
           Scenario.client
           "SHAAD_Web_Search" (Templates.web_search "SHAAD_Web_Search")
           (Mock.start []) mock_stateful).
  - constructor.
  - reflexivity.
Defined.

(** The service already holds all four workflows and its listing call is
    down: the run submits all four again. *)
Lemma setup_all_workflows_fails_open_witness :
  ∃ w', setup_all_workflows Blind.serve Scenario.repr Scenario.client
          (Mock.start Scenario.all_four_records)
        = (Ok tt, w')
        ∧ True
        ∧ sent w'
          = sent (Mock.start Scenario.all_four_records)
            ++ concat ((λ t, [listing_request Scenario.client;
                              creation_request Scenario.client (snd t)])
                       <$> templates).
Proof.
  apply (setup_all_workflows_fails_open Blind.serve Scenario.repr
           (λ _, True) Scenario.client
           (Mock.start Scenario.all_four_records) blind_listing_down).
  exact I.
Defined.

(** Three runs against the mock that holds all four workflows. *)
Lemma runs_when_listed_witness :
  ∃ w', runs Mock.serve Scenario.repr 3 Scenario.client
          (Mock.start Scenario.all_four_records)
        = (Ok tt, w')
        ∧ remote w' = Scenario.all_four_records
        ∧ sent w' = replicate 12 (listing_request Scenario.client).
Proof.
  apply (runs_when_listed Mock.serve Scenario.repr (λ records, records)
           Scenario.client 3 mock_stateful
           (Mock.start Scenario.all_four_records)).
  - repeat constructor; eexists; reflexivity.
  - unfold templates.
    repeat match goal with
           | |- Forall _ (_ :: _) => constructor
           | |- Forall _ [] => constructor
           end;
      simpl; repeat first [apply list_elem_of_here | apply list_elem_of_further].
Defined.

(** The closing line on the terminal of a process that exits with 1: the
    service put it there, in the text of a rejected creation. *)
Example closing_line_spoofed :
  let run := main Script.serve Scenario.repr ∅
               (Script.start [Answered Scenario.server_error;
                              Answered Scenario.spoofing_rejection]) in
  exit_code (fst run) = 1
  ∧ stdout (snd run)
    = header_lines ++ [failed_line (text Scenario.spoofing_rejection)]
  ∧ ("✓ Workflow setup complete!" ∉ stdout (snd run))
  ∧ ("✓ Workflow setup complete!" ∈ terminal_lines (stdout (snd run))).
Proof.
  cbv zeta.
  assert (Hout :
    stdout (snd (main Script.serve Scenario.repr ∅
                   (Script.start [Answered Scenario.server_error;
                                  Answered Scenario.spoofing_rejection])))
    = header_lines ++ [failed_line (text Scenario.spoofing_rejection)])
    by (vm_compute; reflexivity).
  rewrite Hout. split; [reflexivity|]. split; [reflexivity|]. split.
  - intros Hin. apply elem_of_app in Hin as [Hin|Hin].
    + unfold header_lines in Hin.
      apply elem_of_cons in Hin as [Hin|Hin]; [discriminate|].
      apply list_elem_of_singleton in Hin. discriminate.
    + apply list_elem_of_singleton in Hin. discriminate.
  - apply list_elem_of_bind.
    exists (failed_line (text Scenario.spoofing_rejection)). split.
    + vm_compute. apply list_elem_of_further, list_elem_of_here.
    + apply elem_of_app. right. apply list_elem_of_here.
Qed.
